(** * Donor dashboard and alert dialog of the blood-donation mobile client

    A shallow embedding of [CustomAlert] (the alert dialog component) and of
    [DonorHomeScreen] (the donor dashboard: its state, its refresh
    operations, the parts of its render function that depend on that state,
    and its polling life cycle), followed by the properties the
    specification states about them.

    Conventions of the embedding:
    - a TypeScript field of type [T | null] (or an optional field) is an
      [option T]; [None] stands for [null] and [undefined], which the code
      under study tells apart nowhere except in one [!== null] test whose
      outcome is the same for both;
    - [number] fields are integers ([Z]): the specification describes them
      as counts and day counts;
    - JavaScript truthiness is written out: the empty string, [0], [false],
      [null] and [undefined] are falsy;
    - an [async] function is a computation in a state-and-exception monad
      over the component state, and the outcome of each awaited promise is
      an argument; [console] output is not part of the component state and
      is left out;
    - strings are byte strings; [toLowerCase] is modelled for strings of
      ASCII characters ([is_ascii]) only, and every statement about the
      lower-case form of a server string assumes such a string;
    - a rendered element is a tree of [node]s; a JSX child [c && <X/>]
      contributes [X] when [c] is truthy and nothing otherwise; React [key]
      props are reconciliation hints and are left out. *)

From Stdlib Require Import String Ascii List ZArith Bool Arith Lia.
From Stdlib Require Import DecimalString.
Import ListNotations.
Local Open Scope string_scope.

(** ** JavaScript values used by the two components *)

Module JS.

(** Truthiness of a [string | null | undefined] value. *)
Definition truthy_str (v : option string) : bool :=
  match v with
  | Some s => negb (String.eqb s "")
  | None => false
  end.

(** [a || b] on [string | undefined] values. *)
Definition or_str (a b : option string) : option string :=
  if truthy_str a then a else b.

(** [a || d] where [d] is a string literal: the result is a string. *)
Definition or_lit (a : option string) (d : string) : string :=
  match a with
  | Some s => if String.eqb s "" then d else s
  | None => d
  end.

(** A [string | null] value inside a template literal. *)
Definition interpolate (v : option string) : string :=
  match v with
  | Some s => s
  | None => "null"
  end.

(** Is every character of the string an ASCII character (a byte below
    128)? *)
Fixpoint is_ascii (s : string) : bool :=
  match s with
  | EmptyString => true
  | String c rest => (nat_of_ascii c <? 128)%nat && is_ascii rest
  end.

(** [String.prototype.toLowerCase] for strings of ASCII characters: on
    those the case mapping of JavaScript turns the letters [A]-[Z] into
    [a]-[z] and keeps every other character.  A string with a byte of 128
    or more stands for non-ASCII text, whose JavaScript case mapping
    (Unicode) this function does not give: it is outside the model, and
    the statements that name a result of [toLowerCase] are made for
    [is_ascii] strings. *)
Definition lower_ascii (c : ascii) : ascii :=
  let n := nat_of_ascii c in
  if (65 <=? n)%nat && (n <=? 90)%nat then ascii_of_nat (n + 32) else c.

Fixpoint toLowerCase (s : string) : string :=
  match s with
  | EmptyString => EmptyString
  | String c rest => String (lower_ascii c) (toLowerCase rest)
  end.

(** What a [throw] carries. *)
Inductive error : Type :=
| TypeError (message : string)
| Rejected (reason : string).

(** How a call, or an awaited promise, completes. *)
Inductive completion (A : Type) : Type :=
| Normal (a : A)
| Throw (e : error).

Arguments Normal {A} a.
Arguments Throw {A} e.

End JS.

(** ** Computations over a component state that may throw *)

Module Eff.
Import JS.

Section Monad.
Variable S : Type.

Definition M (A : Type) : Type := S -> completion A * S.

Definition ret {A} (a : A) : M A := fun s => (Normal a, s).

Definition bind {A B} (c : M A) (k : A -> M B) : M B :=
  fun s =>
    match c s with
    | (Normal a, s') => k a s'
    | (Throw e, s') => (Throw e, s')
    end.

Definition throw {A} (e : error) : M A := fun s => (Throw e, s).

(** [await p]: resume with the value of a fulfilled promise, or throw the
    reason of a rejected one. *)
Definition await {A} (p : completion A) : M A := fun s => (p, s).

(** [try { body } catch (error) { handler }]. *)
Definition try_catch {A} (body : M A) (handler : error -> M A) : M A :=
  fun s =>
    match body s with
    | (Normal a, s') => (Normal a, s')
    | (Throw e, s') => handler e s'
    end.

(** [try { body } finally { fin }]: [fin] runs on both exits, and a throw
    of [fin] replaces the completion of [body]. *)
Definition try_finally {A} (body : M A) (fin : M unit) : M A :=
  fun s =>
    match body s with
    | (r, s') =>
        match fin s' with
        | (Normal _, s'') => (r, s'')
        | (Throw e, s'') => (Throw e, s'')
        end
    end.

(** A state setter. *)
Definition modify (f : S -> S) : M unit := fun s => (Normal tt, f s).

(** The state a computation leaves. *)
Definition exec {A} (c : M A) (s : S) : S := snd (c s).

End Monad.

Arguments ret {S A} a.
Arguments bind {S A B} c k.
Arguments throw {S A} e.
Arguments await {S A} p.
Arguments try_catch {S A} body handler.
Arguments try_finally {S A} body fin.
Arguments modify {S} f.
Arguments exec {S A} c s.

Module Notations.
Declare Scope eff_scope.
Delimit Scope eff_scope with eff.
Notation "x <- c ;; k" := (bind c (fun x => k))
  (at level 61, c at next level, right associativity) : eff_scope.
Notation "c ;; k" := (bind c (fun _ => k))
  (at level 61, right associativity) : eff_scope.
End Notations.

End Eff.

(** ** Rendered element trees *)

Module Element.

(** A child of a [<Text>]: a string, or a number shown in decimal. *)
Inductive jsx : Type :=
| Str (s : string)
| Num (n : Z).

(** The React Native elements the two components produce.  [style] lists
    the names of the style-sheet entries (and the inline declarations) that
    apply, the falsy entries of a style array dropped.  [H] is the type of
    press handlers. *)
#[warnings="-register-all"]
Inductive node (H : Type) : Type :=
| View (style : list string) (children : list (node H))
| Text (style : list string) (children : list jsx)
| ActivityIndicator (size color : string)
| Ionicons (name : string) (size : Z) (color : string)
| TouchableOpacity (style : list string) (onPress : H)
    (children : list (node H))
| Modal (visible : bool) (onRequestClose : option H)
    (children : list (node H)).

Arguments View {H} style children.
Arguments Text {H} style children.
Arguments ActivityIndicator {H} size color.
Arguments Ionicons {H} name size color.
Arguments TouchableOpacity {H} style onPress children.
Arguments Modal {H} visible onRequestClose children.

(** [c && x] inside a style array or a list of children. *)
Definition when {A : Type} (c : bool) (x : A) : list A :=
  if c then [x] else [].

Definition has_style (name : string) (style : list string) : bool :=
  existsb (String.eqb name) style.

Definition one_if (b : bool) : nat := if b then 1 else 0.

(** Number of [View], [Text] and [TouchableOpacity] elements of a tree that
    carry the style [name]. *)
Fixpoint count_styled {H} (name : string) (n : node H) : nat :=
  match n with
  | View style children =>
      one_if (has_style name style)
      + list_sum (map (count_styled name) children)
  | Text style _ => one_if (has_style name style)
  | ActivityIndicator _ _ => 0
  | Ionicons _ _ _ => 0
  | TouchableOpacity style _ children =>
      one_if (has_style name style)
      + list_sum (map (count_styled name) children)
  | Modal _ _ children => list_sum (map (count_styled name) children)
  end.

(** Number of pressable elements ([TouchableOpacity]) of a tree. *)
Fixpoint count_touchables {H} (n : node H) : nat :=
  match n with
  | View _ children => list_sum (map count_touchables children)
  | Text _ _ => 0
  | ActivityIndicator _ _ => 0
  | Ionicons _ _ _ => 0
  | TouchableOpacity _ _ children =>
      1 + list_sum (map count_touchables children)
  | Modal _ _ children => list_sum (map count_touchables children)
  end.

Definition jsx_eqb (a b : jsx) : bool :=
  match a, b with
  | Str s, Str t => String.eqb s t
  | Num m, Num n => Z.eqb m n
  | _, _ => false
  end.

Fixpoint jsx_list_eqb (a b : list jsx) : bool :=
  match a, b with
  | [], [] => true
  | x :: a', y :: b' => jsx_eqb x y && jsx_list_eqb a' b'
  | _, _ => false
  end.

(** Number of [Text] elements of a tree that carry the style [name] and
    whose children are exactly [content]. *)
Fixpoint count_text {H} (name : string) (content : list jsx) (n : node H)
    : nat :=
  match n with
  | View _ children => list_sum (map (count_text name content) children)
  | Text style children =>
      one_if (has_style name style && jsx_list_eqb children content)
  | ActivityIndicator _ _ => 0
  | Ionicons _ _ _ => 0
  | TouchableOpacity _ _ children =>
      list_sum (map (count_text name content) children)
  | Modal _ _ children => list_sum (map (count_text name content) children)
  end.

(** The press handlers of a tree, in document order. *)
Fixpoint handlers {H} (n : node H) : list H :=
  match n with
  | View _ children => concat (map handlers children)
  | Text _ _ => []
  | ActivityIndicator _ _ => []
  | Ionicons _ _ _ => []
  | TouchableOpacity _ onPress children =>
      onPress :: concat (map handlers children)
  | Modal _ _ children => concat (map handlers children)
  end.

End Element.

(** ** The alert dialog ([CustomAlert]) *)

Module Alert.
Import Element.

Section WithWorld.

(** Callbacks are [() => void] closures supplied by the caller; they are
    modelled by their effect on a world [W] the caller chooses, and they
    return normally (a callback that throws is outside this model). *)
Variable W : Type.

Definition callback : Type := W -> W.

Inductive ButtonStyle : Type := default | cancel | destructive.

Record AlertButton : Type := {
  text : string;
  onPress : option callback;
  style : option ButtonStyle
}.

Inductive AlertType : Type := success | error | warning | info.

Record CustomAlertProps : Type := {
  visible : bool;
  title : string;
  message : string;
  buttons : option (list AlertButton);
  type : option AlertType;
  onDismiss : option callback
}.

(** The default of the [buttons] prop: [[{ text: 'OK', style: 'default' }]]. *)
Definition default_buttons : list AlertButton :=
  [ {| text := "OK"; onPress := None; style := Some default |} ].

(** The default of the [type] prop. *)
Definition default_type : AlertType := info.

Definition getIcon (t : AlertType) : string :=
  match t with
  | success => "✓"
  | error => "!"
  | warning => "⚠"
  | info => "ℹ"
  end.

Definition getIconColor (t : AlertType) : string :=
  match t with
  | success => "#DC143C"
  | error => "#DC143C"
  | warning => "#FF9800"
  | info => "#DC143C"
  end.

(** [handleButtonPress]: the button's own callback when it has one, then
    the dismissal callback when there is one. *)
Definition handleButtonPress (onDismiss : option callback)
    (button : AlertButton) : callback :=
  fun w =>
    let w1 := match onPress button with
              | Some f => f w
              | None => w
              end in
    match onDismiss with
    | Some d => d w1
    | None => w1
    end.

(** Used in the statements about presses: the effect of calling an
    optional callback, which is nothing when the callback is absent. *)
Definition invoke (f : option callback) (w : W) : W :=
  match f with
  | Some g => g w
  | None => w
  end.

Definition is_cancel (b : AlertButton) : bool :=
  match style b with Some cancel => true | _ => false end.

Definition is_destructive (b : AlertButton) : bool :=
  match style b with Some destructive => true | _ => false end.

(** The body of [buttons.map((button, index) => ...)]; [n] is
    [buttons.length]. *)
Definition renderButton (onDismiss : option callback) (n : nat)
    (button : AlertButton) : node callback :=
  TouchableOpacity
    ("button"
       :: when (is_cancel button) "buttonCancel"
       ++ when (is_destructive button) "buttonDestructive"
       ++ when (n =? 1)%nat "buttonSingle")
    (handleButtonPress onDismiss button)
    [ Text
        ("buttonText"
           :: when (is_cancel button) "buttonTextCancel"
           ++ when (is_destructive button) "buttonTextDestructive")
        [ Str (text button) ] ].

(** The buttons in effect: the prop, or its default when it is not given. *)
Definition effective_buttons (props : CustomAlertProps) : list AlertButton :=
  match buttons props with
  | Some bs => bs
  | None => default_buttons
  end.

Definition effective_type (props : CustomAlertProps) : AlertType :=
  match type props with
  | Some t => t
  | None => default_type
  end.

(** The children of the [buttonsContainer] view. *)
Definition renderButtons (props : CustomAlertProps) : list (node callback) :=
  let bs := effective_buttons props in
  map (renderButton (onDismiss props) (length bs)) bs.

Definition CustomAlert (props : CustomAlertProps) : node callback :=
  Modal (visible props) (onDismiss props)
    [ View ["overlay"]
        [ View ["alertContainer"]
            [ View ["iconContainer";
                    "backgroundColor:" ++ getIconColor (effective_type props)]
                [ Text ["icon"] [ Str (getIcon (effective_type props)) ] ];
              Text ["title"] [ Str (title props) ];
              Text ["message"] [ Str (message props) ];
              View ["buttonsContainer"] (renderButtons props) ] ] ].

End WithWorld.

Arguments text {W} a.
Arguments onPress {W} a.
Arguments style {W} a.
Arguments visible {W} c.
Arguments title {W} c.
Arguments message {W} c.
Arguments buttons {W} c.
Arguments type {W} c.
Arguments onDismiss {W} c.
Arguments default_buttons {W}.
Arguments handleButtonPress {W} onDismiss button.
Arguments invoke {W} f w.
Arguments is_cancel {W} b.
Arguments is_destructive {W} b.
Arguments renderButton {W} onDismiss n button.
Arguments effective_buttons {W} props.
Arguments effective_type {W} props.
Arguments renderButtons {W} props.
Arguments CustomAlert {W} props.

End Alert.

(** ** The donor dashboard ([DonorHomeScreen]) *)

Module DonorHome.
Import JS Eff Eff.Notations Element.
Local Open Scope eff_scope.

(** *** Collaborators: the signed-in user and the response shapes *)

(** The user of [useAuth()]; its declaration is outside the excerpt, the
    dashboard reads [id], [name] and [email]. *)
Record User : Type := {
  id : string;
  name : string;
  email : option string
}.

(** [user?.id] is truthy. *)
Definition has_id (user : option User) : bool :=
  match user with
  | Some u => negb (String.eqb (id u) "")
  | None => false
  end.

(** The response of [profileAPI.getDonorProfile]. *)
Module ProfileResponse.
Record Profile : Type := {
  approval_status : option string;
  approvalStatus : option string;
  admin_remarks : option string;
  adminRemarks : option string
}.
Record t : Type := {
  success : bool;
  profile : option Profile
}.
End ProfileResponse.

(** The response of [bloodRequestAPI.getDonorStats]. *)
Module Stats.
Record t : Type := { donatedCount : Z }.
End Stats.

(** The response of [bloodRequestAPI.getAvailableForDonor]; the dashboard
    only takes the length of [requests]. *)
Module Available.
Record t : Type := { requests : option (list string) }.
End Available.

(** The body of [GET /api/donor/{id}/details]. *)
Module Details.
Record t : Type := {
  success : bool;
  bloodGroup : option string;
  lastDonation : option string;
  nextEligible : option string;
  daysUntilEligible : option Z;
  isEligible : bool
}.
End Details.

(** An element of the recent-donations list. *)
Record Donation : Type := {
  date : string;
  location : string;
  units : Z;
  bloodGroup : option string
}.

(** The body of [GET /api/donor/{id}/recent-donations?limit=5]. *)
Module Donations.
Record t : Type := {
  success : bool;
  donations : list Donation
}.
End Donations.

(** What [fetch] resolves to: an object whose [json()] promise resolves to
    the parsed body or rejects. *)
Record Response (Body : Type) : Type := { json : completion Body }.
Arguments json {Body} r.

(** *** Component state: the [useState] cells *)

Record DonorInfo : Type := {
  bloodType : option string;
  lastDonation : option string;
  nextEligible : option string;
  daysUntilEligible : option Z;
  isEligible : bool
}.

(** [profileStatus] is declared with the union of the five literals
    'loading', 'none', 'pending', 'approved' and 'rejected', but
    [loadProfileStatus] stores whatever string the server sent, in lower
    case: the cell holds a string. *)
Record State : Type := {
  availableRequestsCount : Z;
  profileStatus : string;
  profileRemarks : string;
  donatedCount : Z;
  donorInfo : DonorInfo;
  recentDonations : list Donation;
  loadingDonations : bool;
  unreadCount : Z;
  showMenu : bool
}.

(** The initial values given to [useState]. *)
Definition initial_state : State := {|
  availableRequestsCount := 0;
  profileStatus := "loading";
  profileRemarks := "";
  donatedCount := 0;
  donorInfo := {| bloodType := None; lastDonation := None;
                  nextEligible := None; daysUntilEligible := None;
                  isEligible := false |};
  recentDonations := [];
  loadingDonations := true;
  unreadCount := 0;
  showMenu := false
|}.

Definition setAvailableRequestsCount (v : Z) : M State unit :=
  modify (fun st => {|
    availableRequestsCount := v;
    profileStatus := profileStatus st;
    profileRemarks := profileRemarks st;
    donatedCount := donatedCount st;
    donorInfo := donorInfo st;
    recentDonations := recentDonations st;
    loadingDonations := loadingDonations st;
    unreadCount := unreadCount st;
    showMenu := showMenu st |}).

Definition setProfileStatus (v : string) : M State unit :=
  modify (fun st => {|
    availableRequestsCount := availableRequestsCount st;
    profileStatus := v;
    profileRemarks := profileRemarks st;
    donatedCount := donatedCount st;
    donorInfo := donorInfo st;
    recentDonations := recentDonations st;
    loadingDonations := loadingDonations st;
    unreadCount := unreadCount st;
    showMenu := showMenu st |}).

Definition setProfileRemarks (v : string) : M State unit :=
  modify (fun st => {|
    availableRequestsCount := availableRequestsCount st;
    profileStatus := profileStatus st;
    profileRemarks := v;
    donatedCount := donatedCount st;
    donorInfo := donorInfo st;
    recentDonations := recentDonations st;
    loadingDonations := loadingDonations st;
    unreadCount := unreadCount st;
    showMenu := showMenu st |}).

Definition setDonatedCount (v : Z) : M State unit :=
  modify (fun st => {|
    availableRequestsCount := availableRequestsCount st;
    profileStatus := profileStatus st;
    profileRemarks := profileRemarks st;
    donatedCount := v;
    donorInfo := donorInfo st;
    recentDonations := recentDonations st;
    loadingDonations := loadingDonations st;
    unreadCount := unreadCount st;
    showMenu := showMenu st |}).

Definition setDonorInfo (v : DonorInfo) : M State unit :=
  modify (fun st => {|
    availableRequestsCount := availableRequestsCount st;
    profileStatus := profileStatus st;
    profileRemarks := profileRemarks st;
    donatedCount := donatedCount st;
    donorInfo := v;
    recentDonations := recentDonations st;
    loadingDonations := loadingDonations st;
    unreadCount := unreadCount st;
    showMenu := showMenu st |}).

Definition setRecentDonations (v : list Donation) : M State unit :=
  modify (fun st => {|
    availableRequestsCount := availableRequestsCount st;
    profileStatus := profileStatus st;
    profileRemarks := profileRemarks st;
    donatedCount := donatedCount st;
    donorInfo := donorInfo st;
    recentDonations := v;
    loadingDonations := loadingDonations st;
    unreadCount := unreadCount st;
    showMenu := showMenu st |}).

Definition setLoadingDonations (v : bool) : M State unit :=
  modify (fun st => {|
    availableRequestsCount := availableRequestsCount st;
    profileStatus := profileStatus st;
    profileRemarks := profileRemarks st;
    donatedCount := donatedCount st;
    donorInfo := donorInfo st;
    recentDonations := recentDonations st;
    loadingDonations := v;
    unreadCount := unreadCount st;
    showMenu := showMenu st |}).

(** *** The refresh operations *)

(** [status.toLowerCase()] where [status] may be [undefined]: reading a
    property of [undefined] throws a [TypeError]. *)
Definition call_toLowerCase (status : option string) : M State string :=
  match status with
  | Some s => ret (toLowerCase s)
  | None => throw (TypeError "Cannot read properties of undefined")
  end.

(** [response.success && response.profile], as the condition of the [if]
    and as the profile read in its first branch. *)
Definition success_and_profile (response : ProfileResponse.t)
    : option ProfileResponse.Profile :=
  if ProfileResponse.success response
  then ProfileResponse.profile response
  else None.

(** The part of [loadProfileStatus] inside [try]/[catch]. *)
Definition loadProfileStatus_body
    (getDonorProfile : completion ProfileResponse.t) : M State unit :=
  try_catch
    (response <- await getDonorProfile ;;
     match success_and_profile response with
     | Some profile =>
         let status :=
           or_str (ProfileResponse.approval_status profile)
                  (ProfileResponse.approvalStatus profile) in
         lowered <- call_toLowerCase status ;;
         setProfileStatus lowered ;;
         setProfileRemarks
           (or_lit (or_str (ProfileResponse.admin_remarks profile)
                           (ProfileResponse.adminRemarks profile)) "")
     | None => setProfileStatus "none"
     end)
    (fun _ => setProfileStatus "none").

Definition loadProfileStatus (user : option User)
    (getDonorProfile : completion ProfileResponse.t) : M State unit :=
  match user with
  | None => ret tt
  | Some _ => loadProfileStatus_body getDonorProfile
  end.

(** The part of [loadDonorStats] inside [try]/[catch]. *)
Definition loadDonorStats_body (getDonorStats : completion Stats.t)
    : M State unit :=
  try_catch
    (stats <- await getDonorStats ;;
     setDonatedCount (Stats.donatedCount stats))
    (fun _ => ret tt).

Definition loadDonorStats (user : option User)
    (getDonorStats : completion Stats.t) : M State unit :=
  if has_id user then loadDonorStats_body getDonorStats else ret tt.

(** The part of [loadDonorDetails] inside [try]/[catch]. *)
Definition loadDonorDetails_body
    (fetch : completion (Response Details.t)) : M State unit :=
  try_catch
    (response <- await fetch ;;
     data <- await (json response) ;;
     if Details.success data
     then setDonorInfo {|
            bloodType := Details.bloodGroup data;
            lastDonation := Details.lastDonation data;
            nextEligible := Details.nextEligible data;
            daysUntilEligible := Details.daysUntilEligible data;
            isEligible := Details.isEligible data |}
     else ret tt)
    (fun _ => ret tt).

Definition loadDonorDetails (user : option User)
    (fetch : completion (Response Details.t)) : M State unit :=
  if has_id user then loadDonorDetails_body fetch else ret tt.

(** [loadRecentDonations] after its guard: [try]/[catch]/[finally]. *)
Definition loadRecentDonations_body
    (fetch : completion (Response Donations.t)) : M State unit :=
  try_finally
    (try_catch
       (setLoadingDonations true ;;
        response <- await fetch ;;
        data <- await (json response) ;;
        if Donations.success data
        then setRecentDonations (Donations.donations data)
        else ret tt)
       (fun _ => ret tt))
    (setLoadingDonations false).

Definition loadRecentDonations (user : option User)
    (fetch : completion (Response Donations.t)) : M State unit :=
  if has_id user then loadRecentDonations_body fetch else ret tt.

(** [response.requests?.length || 0]. *)
Definition requests_length (response : Available.t) : Z :=
  match Available.requests response with
  | Some l => Z.of_nat (length l)
  | None => 0
  end.

(** The part of [updateAvailableCount] inside [try]/[catch]. *)
Definition updateAvailableCount_body
    (getAvailableForDonor : completion Available.t) : M State unit :=
  try_catch
    (response <- await getAvailableForDonor ;;
     setAvailableRequestsCount (requests_length response))
    (fun _ => setAvailableRequestsCount 0).

Definition updateAvailableCount (user : option User)
    (getAvailableForDonor : completion Available.t) : M State unit :=
  if has_id user
  then updateAvailableCount_body getAvailableForDonor
  else ret tt.

(** *** The render function: the parts that depend on the loaded state *)

(** What a press does on the dashboard cards: a navigation. *)
Inductive action : Type :=
| navigate (screen : string).

(** A [string | null] value as a child of a [<Text>]. *)
Definition child_str (v : option string) : list jsx :=
  match v with
  | Some s => [Str s]
  | None => []
  end.

(** A [number | null] value as a child of a [<Text>]. *)
Definition child_num (v : option Z) : list jsx :=
  match v with
  | Some n => [Num n]
  | None => []
  end.

(** The five branches of the profile status card. *)
Definition loadingCard : node action :=
  View ["profileStatusCard"]
    [ ActivityIndicator "small" "#DC143C";
      Text ["profileStatusText"] [Str "Loading profile..."] ].

Definition incompleteCard : node action :=
  TouchableOpacity ["profileStatusCard"; "profileIncompleteCard"]
    (navigate "DonorProfileForm")
    [ Ionicons "alert-circle" 24 "#FF9800";
      View ["profileStatusContent"]
        [ Text ["profileStatusTitle"] [Str "Complete Your Profile"];
          Text ["profileStatusSubtitle"]
            [Str "Complete your profile to start accepting blood requests"] ];
      Ionicons "chevron-forward" 24 "#FF9800" ].

Definition pendingCard : node action :=
  View ["profileStatusCard"; "profilePendingCard"]
    [ Ionicons "time" 24 "#2196F3";
      View ["profileStatusContent"]
        [ Text ["profileStatusTitle"] [Str "Profile Under Review"];
          Text ["profileStatusSubtitle"]
            [Str "Your profile is pending admin approval"] ] ].

Definition rejectedCard (profileRemarks : string) : node action :=
  TouchableOpacity ["profileStatusCard"; "profileRejectedCard"]
    (navigate "DonorProfileForm")
    [ Ionicons "close-circle" 24 "#F44336";
      View ["profileStatusContent"]
        [ Text ["profileStatusTitle"] [Str "Profile Rejected"];
          Text ["profileStatusSubtitle"]
            [Str (or_lit (Some profileRemarks) "Please update your profile")] ];
      Ionicons "chevron-forward" 24 "#F44336" ].

Definition approvedCard : node action :=
  View ["profileStatusCard"; "profileApprovedCard"]
    [ Ionicons "checkmark-circle" 24 "#4CAF50";
      View ["profileStatusContent"]
        [ Text ["profileStatusTitle"] [Str "Profile Approved ✓"];
          Text ["profileStatusSubtitle"]
            [Str "You can now accept blood requests"] ];
      TouchableOpacity [] (navigate "DonorProfileForm")
        [ Ionicons "create-outline" 20 "#4CAF50" ] ].

(** The profile status card: the chain of conditionals on [profileStatus];
    [None] is the final [null]. *)
Definition profileStatusCard (st : State) : option (node action) :=
  if String.eqb (profileStatus st) "loading" then Some loadingCard
  else if String.eqb (profileStatus st) "none" then Some incompleteCard
  else if String.eqb (profileStatus st) "pending" then Some pendingCard
  else if String.eqb (profileStatus st) "rejected"
       then Some (rejectedCard (profileRemarks st))
  else if String.eqb (profileStatus st) "approved" then Some approvedCard
  else None.

(** [donorInfo.daysUntilEligible !== null]. *)
Definition not_null (v : option Z) : bool :=
  match v with
  | Some _ => true
  | None => false
  end.

(** [donorInfo.daysUntilEligible > 0]. *)
Definition gt_zero (v : option Z) : bool :=
  match v with
  | Some n => (0 <? n)%Z
  | None => false
  end.

(** The condition in front of the eligibility footer. *)
Definition countdown_condition (info : DonorInfo) : bool :=
  negb (isEligible info)
  && not_null (daysUntilEligible info)
  && gt_zero (daysUntilEligible info)
  && truthy_str (nextEligible info).

(** The footer with the next-eligible date and the countdown badge. *)
Definition eligibilityFooter (info : DonorInfo) : node action :=
  View ["eligibilityFooter"]
    [ View ["eligibilityInfoRow"]
        [ Ionicons "calendar" 16 "#666";
          Text ["eligibilityInfoLabel"] [Str "Next Eligible:"];
          Text ["eligibilityInfoValue"] (child_str (nextEligible info)) ];
      View ["countdownBadge"]
        [ Text ["countdownText"]
            (child_num (daysUntilEligible info)
               ++ [Str " days remaining"]) ] ].

Definition eligibilitySubtitle (info : DonorInfo) : string :=
  if isEligible info then "You can donate blood today"
  else if truthy_str (lastDonation info) && truthy_str (nextEligible info)
       then "Last donated on " ++ interpolate (lastDonation info)
  else "Complete your profile to start donating".

(** The eligibility card, shown when [donorInfo.bloodType] is truthy. *)
Definition eligibilityStatus (st : State) : list (node action) :=
  let info := donorInfo st in
  let isEligible := isEligible info in
  when (truthy_str (bloodType info))
    (View
       ["eligibilityCard";
        if isEligible then "eligibleCard" else "notEligibleCard"]
       (View ["eligibilityHeader"]
          [ View
              ["eligibilityIconContainer";
               if isEligible then "backgroundColor:#E8F5E9"
               else "backgroundColor:#FFF3E0"]
              [ Ionicons (if isEligible then "checkmark-circle" else "time")
                  32 (if isEligible then "#4CAF50" else "#FF9800") ];
            View ["eligibilityContent"]
              [ Text ["eligibilityTitle"]
                  [Str (if isEligible then "Eligible to Donate!"
                        else "Not Eligible Yet")];
                Text ["eligibilitySubtitle"]
                  [Str (eligibilitySubtitle info)] ] ]
        :: when (countdown_condition info) (eligibilityFooter info))).

(** Number of countdown badges on the screen. *)
Definition countdown_badges (st : State) : nat :=
  list_sum (map (count_styled "countdownBadge") (eligibilityStatus st)).

(** The body of [recentDonations.map((donation, index) => ...)]. *)
Definition historyItem (donation : Donation) : node action :=
  View ["historyItem"]
    [ View ["historyIconContainer"] [ Text ["historyIcon"] [Str "🩸"] ];
      View ["historyContent"]
        [ Text ["historyLocation"] [Str (location donation)];
          Text ["historyDate"] [Str (date donation)] ];
      View ["historyUnits"]
        [ Text ["historyUnitsText"] [Num (units donation); Str " unit"] ] ].

Definition donationsLoadingCard : node action :=
  View ["historyCard"]
    [ ActivityIndicator "small" "#DC143C";
      Text ["emptyText"] [Str "Loading donations..."] ].

Definition donationsEmptyCard : node action :=
  View ["historyCard"]
    [ Text ["emptyText"] [Str "No donations yet"];
      Text ["emptySubtext"]
        [Str "Complete your first donation to see it here"] ].

(** The card under the "Recent Donations" title. *)
Definition recentDonationsCard (st : State) : node action :=
  if loadingDonations st then donationsLoadingCard
  else if (0 <? length (recentDonations st))%nat
       then View ["historyCard"] (map historyItem (recentDonations st))
  else donationsEmptyCard.

(** The "Recent Donations" section. *)
Definition recentDonationsSection (st : State) : node action :=
  View ["section"]
    [ Text ["sectionTitle"] [Str "Recent Donations"];
      recentDonationsCard st ].

(** Number of donation items the section shows. *)
Definition donation_items (st : State) : nat :=
  count_styled "historyItem" (recentDonationsSection st).

(** Number of empty-state messages ("No donations yet") the section
    shows. *)
Definition empty_state_messages (st : State) : nat :=
  count_text "emptyText" [Str "No donations yet"]
    (recentDonationsSection st).

(** *** Life cycle: effects, the polling timer and calls in flight

    Each refresh operation runs synchronously up to its first [await] and
    is then suspended until the awaited promise settles.  The screen below
    keeps the suspended calls; an event of the UI event loop is a tick of
    the one-second interval, the screen gaining focus, the settlement of
    one call in flight, or the unmounting of the screen.  The cell values
    of [ui] are the values last handed to the [useState] setters. *)

Inductive call : Type :=
| ProfileStatusCall
| DonorStatsCall
| DonorDetailsCall
| RecentDonationsCall
| AvailableCountCall.

Inductive settlement : Type :=
| ProfileSettled (p : completion ProfileResponse.t)
| StatsSettled (p : completion Stats.t)
| DetailsSettled (p : completion (Response Details.t))
| DonationsSettled (p : completion (Response Donations.t))
| AvailableSettled (p : completion Available.t).

Record Screen : Type := {
  user : option User;
  mounted : bool;
  interval : bool;
  ui : State;
  inflight : list call
}.

(** The guard at the head of each operation: [if (!user) return] for the
    profile status, [if (!user?.id) return] for the others. *)
Definition guard (c : call) (u : option User) : bool :=
  match c with
  | ProfileStatusCall => match u with Some _ => true | None => false end
  | _ => has_id u
  end.

(** What an operation does between its guard and its first [await]. *)
Definition prefix (c : call) : M State unit :=
  match c with
  | RecentDonationsCall => setLoadingDonations true
  | _ => ret tt
  end.

(** [loadRecentDonations] from its first [await] on. *)
Definition loadRecentDonations_resume
    (fetch : completion (Response Donations.t)) : M State unit :=
  try_finally
    (try_catch
       (response <- await fetch ;;
        data <- await (json response) ;;
        if Donations.success data
        then setRecentDonations (Donations.donations data)
        else ret tt)
       (fun _ => ret tt))
    (setLoadingDonations false).

(** The continuation of a suspended call once its promise has settled;
    [None] when the settlement is not one of this call. *)
Definition resume (c : call) (r : settlement) : option (M State unit) :=
  match c, r with
  | ProfileStatusCall, ProfileSettled p => Some (loadProfileStatus_body p)
  | DonorStatsCall, StatsSettled p => Some (loadDonorStats_body p)
  | DonorDetailsCall, DetailsSettled p => Some (loadDonorDetails_body p)
  | RecentDonationsCall, DonationsSettled p =>
      Some (loadRecentDonations_resume p)
  | AvailableCountCall, AvailableSettled p =>
      Some (updateAvailableCount_body p)
  | _, _ => None
  end.

(** Calling an operation: past the guard it runs its prefix and is
    suspended. *)
Definition begin (s : Screen) (c : call) : Screen :=
  if guard c (user s)
  then {| user := user s; mounted := mounted s; interval := interval s;
          ui := exec (prefix c) (ui s);
          inflight := inflight s ++ [c] |}
  else s.

Definition begin_all (cs : list call) (s : Screen) : Screen :=
  fold_left begin cs s.

(** The callback of [setInterval]. *)
Definition interval_calls : list call :=
  [AvailableCountCall; DonorStatsCall; DonorDetailsCall].

(** The callback of the second [useFocusEffect]. *)
Definition focus_calls : list call :=
  [AvailableCountCall; DonorStatsCall; ProfileStatusCall;
   DonorDetailsCall; RecentDonationsCall].

(** The effects run on mount: the first [useEffect], the polling effect
    (one [updateAvailableCount], then [setInterval]) and the focus effect
    that reloads the data.  The focus effect that loads the unread
    notification count touches none of the cells studied here and is left
    out. *)
Definition mount_calls : list call :=
  [ProfileStatusCall; DonorStatsCall; DonorDetailsCall; RecentDonationsCall]
    ++ [AvailableCountCall] ++ focus_calls.

Definition mount (u : option User) : Screen :=
  begin_all mount_calls
    {| user := u; mounted := true; interval := true;
       ui := initial_state; inflight := [] |}.

Fixpoint remove_nth {A : Type} (i : nat) (l : list A) : list A :=
  match l, i with
  | [], _ => []
  | _ :: rest, O => rest
  | x :: rest, S j => x :: remove_nth j rest
  end.

Inductive event : Type :=
| Tick
| Focus
| Settle (i : nat) (r : settlement)
| Unmount.

(** One turn of the event loop.  The clean-up of the polling effect is
    [clearInterval(interval)] and nothing else; a settlement resumes the
    suspended call whether or not the screen is still mounted. *)
Definition step (s : Screen) (e : event) : Screen :=
  match e with
  | Tick => if interval s then begin_all interval_calls s else s
  | Focus => if mounted s then begin_all focus_calls s else s
  | Settle i r =>
      match nth_error (inflight s) i with
      | Some c =>
          match resume c r with
          | Some k =>
              {| user := user s; mounted := mounted s;
                 interval := interval s;
                 ui := exec k (ui s);
                 inflight := remove_nth i (inflight s) |}
          | None => s
          end
      | None => s
      end
  | Unmount =>
      {| user := user s; mounted := false; interval := false;
         ui := ui s; inflight := inflight s |}
  end.

Definition run (es : list event) (s : Screen) : Screen :=
  fold_left step es s.

(** *** The remaining cells and the unread-notification count *)

Definition setUnreadCount (v : Z) : M State unit :=
  modify (fun st => {|
    availableRequestsCount := availableRequestsCount st;
    profileStatus := profileStatus st;
    profileRemarks := profileRemarks st;
    donatedCount := donatedCount st;
    donorInfo := donorInfo st;
    recentDonations := recentDonations st;
    loadingDonations := loadingDonations st;
    unreadCount := v;
    showMenu := showMenu st |}).

Definition setShowMenu (v : bool) : M State unit :=
  modify (fun st => {|
    availableRequestsCount := availableRequestsCount st;
    profileStatus := profileStatus st;
    profileRemarks := profileRemarks st;
    donatedCount := donatedCount st;
    donorInfo := donorInfo st;
    recentDonations := recentDonations st;
    loadingDonations := loadingDonations st;
    unreadCount := unreadCount st;
    showMenu := v |}).

(** [loadUnreadCount]: there is no [try] around the [await]. *)
Definition loadUnreadCount (user : option User)
    (getUnreadNotificationCount : completion Z) : M State unit :=
  if has_id user
  then (count <- await getUnreadNotificationCount ;;
        setUnreadCount count)
  else ret tt.

(** *** The render function: header, side menu, profile card and quick
    actions *)

(** What the [onPress] closures of the header and of the side menu do, in
    order.  A navigation and [handleLogout] act outside the component
    state. *)
Inductive effect : Type :=
| SetShowMenu (b : bool)
| Navigate (screen : string)
| HandleLogout.

Definition press : Type := list effect.

Definition perform (e : effect) : M State unit :=
  match e with
  | SetShowMenu b => setShowMenu b
  | Navigate _ => ret tt
  | HandleLogout => ret tt
  end.

(** The state after a press. *)
Definition pressed (p : press) (st : State) : State :=
  fold_left (fun s e => exec (perform e) s) p st.

(** The badge on the bell of the header. *)
Definition headerBadge (st : State) : list (node press) :=
  when (0 <? unreadCount st)%Z
    (View ["notificationBadge"]
       [ Text ["notificationBadgeText"]
           [ if (99 <? unreadCount st)%Z then Str "99+"
             else Num (unreadCount st) ] ]).

Definition header (st : State) : node press :=
  View ["header"]
    [ TouchableOpacity ["headerIcon"] [SetShowMenu (negb (showMenu st))]
        [ Ionicons "menu" 28 "#fff" ];
      View ["headerContent"]
        [ View ["roleBadge"] [ Text ["roleBadgeText"] [Str "DONOR"] ];
          Text ["headerTitle"] [Str "Donor Dashboard"] ];
      TouchableOpacity ["headerIcon"] [Navigate "Notifications"]
        (Ionicons "notifications" 24 "#fff" :: headerBadge st) ].

(** The colour of the role indicator in the side menu. *)
Definition roleIndicatorColor (profileStatus : string) : string :=
  if String.eqb profileStatus "approved" then "#4CAF50"
  else if String.eqb profileStatus "pending" then "#FF9800"
  else if String.eqb profileStatus "rejected" then "#F44336"
  else "#999".

(** The role line in the side menu. *)
Definition roleLabel (profileStatus : string) : string :=
  if String.eqb profileStatus "approved" then "Approved Donor"
  else if String.eqb profileStatus "pending" then "Pending Approval"
  else if String.eqb profileStatus "rejected" then "Profile Rejected"
  else "Donor".

(** [user?.name] and [user?.email]. *)
Definition user_name (user : option User) : option string :=
  match user with
  | Some u => Some (name u)
  | None => None
  end.

Definition user_email (user : option User) : option string :=
  match user with
  | Some u => email u
  | None => None
  end.

Definition menuHeader (user : option User) (st : State) : node press :=
  View ["menuHeader"]
    [ View ["profileCard"]
        [ View ["menuAvatar"] [ Ionicons "water" 36 "#DC143C" ];
          View ["menuUserInfo"]
            ([ Text ["menuUserName"] (child_str (user_name user));
               View ["roleContainer"]
                 [ View ["roleIndicator";
                         "backgroundColor:"
                           ++ roleIndicatorColor (profileStatus st)] [];
                   Text ["menuUserRole"]
                     [Str (roleLabel (profileStatus st))] ] ]
             ++ when (truthy_str (user_email user))
                  (View ["emailContainer"]
                     [ Ionicons "mail" 12 "#999";
                       Text ["menuUserEmail"]
                         (child_str (user_email user)) ])) ] ].

(** The badge of the "Notifications" menu item. *)
Definition menuBadge (st : State) : list (node press) :=
  when (0 <? unreadCount st)%Z
    (View ["menuBadge"]
       [ Text ["menuBadgeText"] [Num (unreadCount st)] ]).

Definition menuSection (st : State) : node press :=
  View ["menuSection"]
    [ TouchableOpacity ["menuItem"]
        [SetShowMenu false; Navigate "DonorProfileForm"]
        [ View ["menuItemIcon"] [ Ionicons "person-circle" 22 "#1A1A1A" ];
          Text ["menuItemText"] [Str "My Profile"] ];
      TouchableOpacity ["menuItem"]
        [SetShowMenu false; Navigate "Notifications"]
        ([ View ["menuItemIcon"] [ Ionicons "notifications" 22 "#1A1A1A" ];
           Text ["menuItemText"] [Str "Notifications"] ]
         ++ menuBadge st);
      TouchableOpacity ["menuItem"]
        [SetShowMenu false; Navigate "RequestHistory"]
        [ View ["menuItemIcon"] [ Ionicons "document-text" 22 "#1A1A1A" ];
          Text ["menuItemText"] [Str "Donation History"] ];
      TouchableOpacity ["menuItem"]
        [SetShowMenu false; Navigate "DonorProfile"]
        [ View ["menuItemIcon"] [ Ionicons "lock-closed" 22 "#1A1A1A" ];
          Text ["menuItemText"] [Str "Change Password"] ] ].

Definition logoutItem : node press :=
  TouchableOpacity ["menuItem"; "menuItemDanger"]
    [SetShowMenu false; HandleLogout]
    [ View ["menuItemIcon"] [ Ionicons "log-out" 22 "#DC143C" ];
      Text ["menuItemText"; "menuItemTextDanger"] [Str "Logout"] ].

(** The side menu, rendered when [showMenu] is set. *)
Definition sidebar (user : option User) (st : State) : list (node press) :=
  when (showMenu st)
    (View ["menuOverlay"]
       [ TouchableOpacity ["menuBackdrop"] [SetShowMenu false] [];
         View ["sidebarMenu"]
           [ menuHeader user st;
             View ["menuDivider"] [];
             menuSection st;
             View ["menuDivider"] [];
             logoutItem;
             View ["menuFooter"]
               [ Text ["menuFooterText"] [Str "BDMS v1.0"] ] ] ]).

(** The donor profile card, shown when [donorInfo.bloodType] is truthy. *)
Definition donorProfileCard (st : State) : list (node action) :=
  when (truthy_str (bloodType (donorInfo st)))
    (View ["profileCard"]
       [ View ["profileCardHeader"]
           [ View ["bloodTypeContainer"]
               [ View ["bloodTypeCircle"]
                   [ Text ["bloodTypeText"]
                       (child_str (bloodType (donorInfo st))) ];
                 Text ["bloodTypeLabel"] [Str "Blood Type"] ];
             View ["profileStatsContainer"]
               [ Text ["profileStatValue"] [Num (donatedCount st)];
                 Text ["profileStatLabel"] [Str "Donations"] ] ] ]).

(** An integer inside a template literal: its decimal digits. *)
Definition interpolate_num (n : Z) : string :=
  NilZero.string_of_int (Z.to_int n).

(** The description line of the "Browse Blood Requests" card. *)
Definition browseDescription (st : State) : string :=
  let n := availableRequestsCount st in
  if (0 <? n)%Z
  then interpolate_num n ++ " request"
         ++ (if negb (n =? 1)%Z then "s" else "") ++ " need your help"
  else "No active requests available".

Definition browseRequestsCard (st : State) : node action :=
  TouchableOpacity ["actionCard"; "primaryActionCard"]
    (navigate "AvailableRequests")
    ([ View ["actionIcon"; "backgroundColor:#FFEBEE"]
         [ Text ["actionIconText"] [Str "🩸"] ];
       View ["actionContent"]
         [ Text ["actionTitle"] [Str "Browse Blood Requests"];
           Text ["actionDescription"] [Str (browseDescription st)] ] ]
     ++ when (0 <? availableRequestsCount st)%Z
          (View ["notificationBadge"]
             [ Text ["notificationText"]
                 [Num (availableRequestsCount st)] ])
     ++ [ Text ["actionArrow"] [Str "›"] ]).

(** The "Quick Actions" section. *)
Definition quickActions (st : State) : node action :=
  View ["section"]
    [ Text ["sectionTitle"] [Str "Quick Actions"];
      browseRequestsCard st;
      TouchableOpacity ["actionCard"] (navigate "RequestHistory")
        [ View ["actionIcon"; "backgroundColor:#F3E5F5"]
            [ Text ["actionIconText"] [Str "📋"] ];
          View ["actionContent"]
            [ Text ["actionTitle"] [Str "Donation History"];
              Text ["actionDescription"]
                [Str "View your accepted donations"] ];
          Text ["actionArrow"] [Str "›"] ];
      TouchableOpacity ["actionCard"] (navigate "DonorProfileForm")
        [ View ["actionIcon"; "backgroundColor:#E0F2F1"]
            [ Text ["actionIconText"] [Str "👤"] ];
          View ["actionContent"]
            [ Text ["actionTitle"] [Str "Update Profile"];
              Text ["actionDescription"]
                [Str "Manage your personal information"] ];
          Text ["actionArrow"] [Str "›"] ] ].

End DonorHome.

(** * Concrete inputs used by the examples *)

(** The logout confirmation of the dashboard ([handleLogout]), with
    callbacks that record their invocation in a log (latest first). *)
Definition logout_buttons : list (Alert.AlertButton (list string)) :=
  [ {| Alert.text := "Cancel"; Alert.onPress := None;
       Alert.style := Some Alert.cancel |};
    {| Alert.text := "Logout"; Alert.onPress := Some (cons "logout");
       Alert.style := Some Alert.destructive |} ].

Definition logout_alert : Alert.CustomAlertProps (list string) :=
  {| Alert.visible := true; Alert.title := "Logout";
     Alert.message := "Are you sure you want to logout?";
     Alert.buttons := Some logout_buttons;
     Alert.type := Some Alert.warning;
     Alert.onDismiss := Some (cons "dismiss") |}.

(** The placeholder alert of [showFeature]: no [buttons] prop. *)
Definition feature_alert : Alert.CustomAlertProps (list string) :=
  {| Alert.visible := true; Alert.title := "History";
     Alert.message := "History feature will be implemented here.";
     Alert.buttons := None;
     Alert.type := Some Alert.info;
     Alert.onDismiss := Some (cons "dismiss") |}.

(** A signed-in donor. *)
Definition donor : DonorHome.User :=
  {| DonorHome.id := "42"; DonorHome.name := "Amina";
     DonorHome.email := None |}.

(** A profile response whose approval status is outside the four known
    values. *)
Definition suspended_response : DonorHome.ProfileResponse.t :=
  {| DonorHome.ProfileResponse.success := true;
     DonorHome.ProfileResponse.profile :=
       Some {| DonorHome.ProfileResponse.approval_status := Some "SUSPENDED";
               DonorHome.ProfileResponse.approvalStatus := None;
               DonorHome.ProfileResponse.admin_remarks := None;
               DonorHome.ProfileResponse.adminRemarks := None |} |}.

(** A profile response whose snake-case approval status is the empty
    string and whose camel-case one is missing. *)
Definition blank_status_response : DonorHome.ProfileResponse.t :=
  {| DonorHome.ProfileResponse.success := true;
     DonorHome.ProfileResponse.profile :=
       Some {| DonorHome.ProfileResponse.approval_status := Some "";
               DonorHome.ProfileResponse.approvalStatus := None;
               DonorHome.ProfileResponse.admin_remarks := None;
               DonorHome.ProfileResponse.adminRemarks := None |} |}.

(** A details body in which the eligibility flag and the day count
    disagree. *)
Definition disagreeing_details : DonorHome.Details.t :=
  {| DonorHome.Details.success := true;
     DonorHome.Details.bloodGroup := Some "O+";
     DonorHome.Details.lastDonation := Some "2024-01-10";
     DonorHome.Details.nextEligible := Some "2024-04-10";
     DonorHome.Details.daysUntilEligible := Some 10%Z;
     DonorHome.Details.isEligible := true |}.

(** A details body of a donor who has ten days to wait. *)
Definition waiting_details : DonorHome.Details.t :=
  {| DonorHome.Details.success := true;
     DonorHome.Details.bloodGroup := Some "O+";
     DonorHome.Details.lastDonation := Some "2024-01-10";
     DonorHome.Details.nextEligible := Some "2024-04-10";
     DonorHome.Details.daysUntilEligible := Some 10%Z;
     DonorHome.Details.isEligible := false |}.

(** The dashboard state after that body has been loaded. *)
Definition waiting_state : DonorHome.State :=
  Eff.exec
    (DonorHome.loadDonorDetails (Some donor)
       (JS.Normal {| DonorHome.json := JS.Normal waiting_details |}))
    DonorHome.initial_state.

(** A recent-donations body with two records. *)
Definition two_donations : DonorHome.Donations.t :=
  {| DonorHome.Donations.success := true;
     DonorHome.Donations.donations :=
       [ {| DonorHome.date := "2024-01-10";
            DonorHome.location := "City Hospital";
            DonorHome.units := 1%Z;
            DonorHome.bloodGroup := Some "O+" |};
         {| DonorHome.date := "2023-09-02";
            DonorHome.location := "No donations yet";
            DonorHome.units := 2%Z;
            DonorHome.bloodGroup := None |} ] |}.

(** The dashboard state after that body has been loaded. *)
Definition two_donations_state : DonorHome.State :=
  Eff.exec
    (DonorHome.loadRecentDonations (Some donor)
       (JS.Normal {| DonorHome.json := JS.Normal two_donations |}))
    DonorHome.initial_state.

(** The mounted dashboard of [donor] after one tick of the polling
    timer. *)
Definition polling_screen : DonorHome.Screen :=
  DonorHome.step (DonorHome.mount (Some donor)) DonorHome.Tick.

(** A statistics response reporting seven donations. *)
Definition seven_donated : DonorHome.settlement :=
  DonorHome.StatsSettled
    (JS.Normal {| DonorHome.Stats.donatedCount := 7%Z |}).

(** A response listing two open blood requests. *)
Definition two_requests : DonorHome.Available.t :=
  {| DonorHome.Available.requests := Some ["r1"; "r2"] |}.

(** A profile response whose approval status is in mixed case. *)
Definition approved_response : DonorHome.ProfileResponse.t :=
  {| DonorHome.ProfileResponse.success := true;
     DonorHome.ProfileResponse.profile :=
       Some {| DonorHome.ProfileResponse.approval_status := Some "Approved";
               DonorHome.ProfileResponse.approvalStatus := None;
               DonorHome.ProfileResponse.admin_remarks := None;
               DonorHome.ProfileResponse.adminRemarks := None |} |}.

(** * Properties *)

(** ** The alert dialog *)

Section AlertFacts.
Import Element Alert.

Context {W : Type}.

Lemma handleButtonPress_invoke (d : option (W -> W)) (b : AlertButton W)
    (w : W) :
  handleButtonPress d b w = invoke d (invoke (onPress b) w).
Proof.
  unfold handleButtonPress, invoke.
  destruct (onPress b), d; reflexivity.
Qed.

Lemma renderButton_touchables (d : option (W -> W)) (n : nat)
    (b : AlertButton W) :
  count_touchables (renderButton d n b) = 1.
Proof. reflexivity. Qed.

Lemma renderButtons_touchables (d : option (W -> W)) (n : nat)
    (bs : list (AlertButton W)) :
  list_sum (map count_touchables (map (renderButton d n) bs)) = length bs.
Proof.
  induction bs as [| b bs IH]; simpl.
  - reflexivity.
  - now rewrite IH.
Qed.

Lemma CustomAlert_touchables (props : CustomAlertProps W) :
  count_touchables (CustomAlert props) = length (effective_buttons props).
Proof.
  unfold CustomAlert, renderButtons. cbn [count_touchables map].
  rewrite renderButtons_touchables. cbn [list_sum fold_right]. lia.
Qed.

Lemma has_style_single (b : AlertButton W) (n : nat) :
  has_style "buttonSingle"
    ("button"
       :: when (is_cancel b) "buttonCancel"
       ++ when (is_destructive b) "buttonDestructive"
       ++ when (n =? 1)%nat "buttonSingle")
  = (n =? 1)%nat.
Proof.
  destruct (is_cancel b), (is_destructive b), (n =? 1)%nat; reflexivity.
Qed.



End AlertFacts.



(** Pressing "Logout" runs the logout callback, then the dismissal, once
    each; pressing "Cancel" or the default "OK" runs the dismissal only. *)
Example logout_press_trace :
  map (fun b => Alert.handleButtonPress (Alert.onDismiss logout_alert) b [])
      logout_buttons
  = [ ["dismiss"]; ["dismiss"; "logout"] ].
Proof. reflexivity. Qed.

(** ** The donor dashboard: the profile status card *)

Section ProfileStatusCard.
Import JS Eff Element DonorHome.

Lemma loadingCard_distinct (remarks : string) :
  incompleteCard <> loadingCard
  /\ pendingCard <> loadingCard
  /\ rejectedCard remarks <> loadingCard
  /\ approvedCard <> loadingCard.
Proof. repeat split; discriminate. Qed.

(** Closes the case of the chain in which the status is the literal of
    equation [E]. *)
Ltac known_status E :=
  split; split; intros ?H;
  solve [ assumption | reflexivity | discriminate | congruence
        | exfalso;
          match goal with
          | Hnot : ~ In _ _ |- _ => apply Hnot; rewrite E; simpl; tauto
          end ].

(** C1, as the code has it.  The profile status card is the loading branch
    exactly when the status is "loading", and it is absent (the final
    [null] of the chain) exactly when the status is none of "loading",
    "none", "pending", "rejected" and "approved". *)
Theorem loading_branch_iff_status_loading (st : State) :
  (profileStatusCard st = Some loadingCard <-> profileStatus st = "loading")
  /\ (profileStatusCard st = None
      <-> ~ In (profileStatus st)
              ["loading"; "none"; "pending"; "rejected"; "approved"]).
Proof.
  destruct (loadingCard_distinct (profileRemarks st)) as [Hi [Hp [Hr Ha]]].
  unfold profileStatusCard.
  destruct (String.eqb_spec (profileStatus st) "loading") as [E1 | N1];
    [ known_status E1 |].
  destruct (String.eqb_spec (profileStatus st) "none") as [E2 | N2];
    [ known_status E2 |].
  destruct (String.eqb_spec (profileStatus st) "pending") as [E3 | N3];
    [ known_status E3 |].
  destruct (String.eqb_spec (profileStatus st) "rejected") as [E4 | N4];
    [ known_status E4 |].
  destruct (String.eqb_spec (profileStatus st) "approved") as [E5 | N5];
    [ known_status E5 |].
  split; split; intros H; try discriminate; try congruence.
  intros [E | [E | [E | [E | [E | []]]]]]; congruence.
Qed.

(** A status outside the four known values and different from "loading"
    is reachable (the server's string is stored in lower case), and for it
    the card is absent: the loading branch is not rendered. *)
Lemma suspended_status_renders_no_card :
  let st := exec (loadProfileStatus (Some donor) (Normal suspended_response))
                 initial_state in
  profileStatus st = "suspended"
  /\ ~ In (profileStatus st) ["approved"; "pending"; "rejected"; "none"]
  /\ profileStatusCard st = None
  /\ profileStatusCard st <> Some loadingCard.
Proof.
  cbv zeta.
  split; [reflexivity |].
  split; [| split; [reflexivity | discriminate]].
  intros [E | [E | [E | [E | []]]]]; discriminate E.
Qed.

End ProfileStatusCard.

(** ** The donor dashboard: the refresh operations *)

Section Refresh.
Import JS Eff Element DonorHome.

Example toLowerCase_mixed : toLowerCase "Pending-X9" = "pending-x9".
Proof. reflexivity. Qed.

(** C2.  When the profile request is answered with [success: false], or
    with no profile object, or fails with a thrown error, the refresh ends
    normally with the profile status "none"; the three runs leave the same
    state. *)
Theorem profile_failures_converge_to_none
    (u : User) (st : State) (e : error)
    (p : option ProfileResponse.Profile) (b : bool) :
  let unsuccessful :=
    loadProfileStatus (Some u)
      (Normal {| ProfileResponse.success := false;
                 ProfileResponse.profile := p |}) st in
  let no_profile :=
    loadProfileStatus (Some u)
      (Normal {| ProfileResponse.success := b;
                 ProfileResponse.profile := None |}) st in
  let thrown := loadProfileStatus (Some u) (Throw e) st in
  profileStatus (snd unsuccessful) = "none"
  /\ profileStatus (snd no_profile) = "none"
  /\ profileStatus (snd thrown) = "none"
  /\ unsuccessful = thrown
  /\ no_profile = thrown
  /\ fst thrown = Normal tt.
Proof.
  cbv zeta. destruct b; repeat split.
Qed.

(** C10, as the code has it.  For a successful response with a profile,
    the status expression is the snake-case field when that is a non-empty
    string and the camel-case field otherwise.  When it yields a string of
    ASCII characters the profile status becomes that string with [A]-[Z]
    turned into [a]-[z] ("APPROVED" gives "approved"); when it yields
    nothing the method call throws, the error is caught, and the profile
    status becomes "none".  In every case the refresh completes
    normally. *)
Theorem profile_status_lowercased_or_none
    (u : User) (st : State) (prof : ProfileResponse.Profile) :
  let result :=
    loadProfileStatus (Some u)
      (Normal {| ProfileResponse.success := true;
                 ProfileResponse.profile := Some prof |}) st in
  (forall s,
      ProfileResponse.approval_status prof = Some s -> s <> "" ->
      is_ascii s = true ->
      profileStatus (snd result) = toLowerCase s)
  /\ (forall s,
        ProfileResponse.approval_status prof = None
        \/ ProfileResponse.approval_status prof = Some "" ->
        ProfileResponse.approvalStatus prof = Some s ->
        is_ascii s = true ->
        profileStatus (snd result) = toLowerCase s)
  /\ (ProfileResponse.approval_status prof = None
      \/ ProfileResponse.approval_status prof = Some "" ->
      ProfileResponse.approvalStatus prof = None ->
      profileStatus (snd result) = "none")
  /\ fst result = Normal tt
  /\ toLowerCase "APPROVED" = "approved".
Proof.
  destruct prof as [snake camel remarks remarks'].
  cbn [ProfileResponse.approval_status ProfileResponse.approvalStatus].
  split; [| split; [| split; [| split]]].
  - intros s Hs Hne _. subst snake.
    cbv -[toLowerCase String.eqb].
    destruct (String.eqb_spec s "") as [E | _]; [contradiction |].
    reflexivity.
  - intros s [Hs | Hs] Hc _; subst snake camel; reflexivity.
  - intros [Hs | Hs] Hc; subst snake camel; reflexivity.
  - cbv -[toLowerCase String.eqb].
    destruct snake as [s |]; [destruct (String.eqb s "") |];
      try reflexivity; destruct camel; reflexivity.
  - reflexivity.
Qed.

Lemma profile_status_lowercased_or_none_witness :
  is_ascii "APPROVED" = true
  /\ profileStatus
       (snd (loadProfileStatus (Some donor)
               (Normal {| ProfileResponse.success := true;
                          ProfileResponse.profile :=
                            Some {|
                              ProfileResponse.approval_status :=
                                Some "APPROVED";
                              ProfileResponse.approvalStatus := None;
                              ProfileResponse.admin_remarks := None;
                              ProfileResponse.adminRemarks := None |} |})
               initial_state))
     = "approved".
Proof.
  split; [reflexivity |].
  refine (proj1 (profile_status_lowercased_or_none
                   donor initial_state
                   {| ProfileResponse.approval_status := Some "APPROVED";
                      ProfileResponse.approvalStatus := None;
                      ProfileResponse.admin_remarks := None;
                      ProfileResponse.adminRemarks := None |})
                "APPROVED" eq_refl _ eq_refl).
  discriminate.
Defined.

(** A present but empty snake-case approval status, with no camel-case
    one, does not become the lower-case form of that string: the status
    expression yields nothing and the profile status is "none". *)
Lemma blank_approval_status_resolves_to_none :
  let st := exec (loadProfileStatus (Some donor)
                    (Normal blank_status_response)) initial_state in
  (exists prof,
      ProfileResponse.profile blank_status_response = Some prof
      /\ ProfileResponse.approval_status prof = Some "")
  /\ profileStatus st = "none"
  /\ profileStatus st <> toLowerCase "".
Proof.
  cbv zeta.
  split; [eexists; split; reflexivity |].
  split; [reflexivity | discriminate].
Qed.

(** C5.  When the statistics request throws, or the details request
    throws, or its body cannot be parsed, or its body says
    [success: false], the refresh ends normally and the whole state, the
    donated count and the donor info in particular, is as before. *)
Theorem failed_stats_and_details_keep_state
    (user : option User) (st : State) (e : error)
    (group last next : option string) (days : option Z) (eligible : bool) :
  loadDonorStats user (Throw e) st = (Normal tt, st)
  /\ loadDonorDetails user (Throw e) st = (Normal tt, st)
  /\ loadDonorDetails user (Normal {| json := Throw e |}) st
     = (Normal tt, st)
  /\ loadDonorDetails user
       (Normal {| json := Normal {|
                    Details.success := false;
                    Details.bloodGroup := group;
                    Details.lastDonation := last;
                    Details.nextEligible := next;
                    Details.daysUntilEligible := days;
                    Details.isEligible := eligible |} |}) st
     = (Normal tt, st).
Proof.
  unfold loadDonorStats, loadDonorDetails.
  destruct (has_id user); repeat split.
Qed.

(** C7.  After a details response with [success] true, the donor info is
    the response's fields as they are: [bloodType] is [bloodGroup], the
    other four fields are copied, whatever their values and whether or not
    the eligibility flag and the day count agree; no other cell changes. *)
Theorem donor_details_stored_verbatim
    (u : User) (st : State) (data : Details.t) :
  has_id (Some u) = true ->
  Details.success data = true ->
  let st' :=
    exec (loadDonorDetails (Some u) (Normal {| json := Normal data |})) st in
  donorInfo st'
  = {| bloodType := Details.bloodGroup data;
       lastDonation := Details.lastDonation data;
       nextEligible := Details.nextEligible data;
       daysUntilEligible := Details.daysUntilEligible data;
       isEligible := Details.isEligible data |}
  /\ donatedCount st' = donatedCount st
  /\ profileStatus st' = profileStatus st
  /\ recentDonations st' = recentDonations st.
Proof.
  intros Hid Hok. cbv zeta.
  unfold loadDonorDetails. rewrite Hid.
  unfold loadDonorDetails_body, exec, try_catch, bind, await.
  cbn [json]. rewrite Hok.
  repeat split.
Qed.

Lemma donor_details_stored_verbatim_witness :
  has_id (Some donor) = true
  /\ Details.success disagreeing_details = true
  /\ donorInfo
       (exec (loadDonorDetails (Some donor)
                (Normal {| json := Normal disagreeing_details |}))
             initial_state)
     = {| bloodType := Some "O+";
          lastDonation := Some "2024-01-10";
          nextEligible := Some "2024-04-10";
          daysUntilEligible := Some 10%Z;
          isEligible := true |}.
Proof.
  split; [reflexivity | split; [reflexivity |]].
  exact (proj1 (donor_details_stored_verbatim
                  donor initial_state disagreeing_details
                  eq_refl eq_refl)).
Defined.

End Refresh.

(** ** The donor dashboard: eligibility countdown and recent donations *)

Section Rendering.
Import JS Eff Element DonorHome.

Lemma countdown_badges_eq (st : State) :
  countdown_badges st
  = one_if (truthy_str (bloodType (donorInfo st))
            && countdown_condition (donorInfo st)).
Proof.
  unfold countdown_badges, eligibilityStatus, countdown_condition.
  destruct (truthy_str (bloodType (donorInfo st)));
    destruct (isEligible (donorInfo st));
    destruct (not_null (daysUntilEligible (donorInfo st)));
    destruct (gt_zero (daysUntilEligible (donorInfo st)));
    destruct (truthy_str (nextEligible (donorInfo st)));
    reflexivity.
Qed.

Lemma gt_zero_true (v : option Z) :
  gt_zero v = true -> exists n, v = Some n /\ (0 < n)%Z.
Proof.
  destruct v as [n |]; simpl; intros H; [| discriminate].
  exists n. split; [reflexivity | now apply Z.ltb_lt].
Qed.

Lemma truthy_str_true (v : option string) :
  truthy_str v = true -> exists s, v = Some s /\ s <> "".
Proof.
  destruct v as [s |]; simpl; intros H; [| discriminate].
  exists s. split; [reflexivity |].
  destruct (String.eqb_spec s ""); [discriminate | assumption].
Qed.

(** C3.  A countdown badge is on the screen only if the donor is not
    eligible, the day count is present and strictly positive and the
    next-eligible date is present (and not the empty string); a day count
    that is zero or negative leaves no badge.  There is never more than
    one badge. *)
Theorem countdown_badge_only_when_days_positive (st : State) :
  ((0 < countdown_badges st)%nat ->
   isEligible (donorInfo st) = false
   /\ (exists n, daysUntilEligible (donorInfo st) = Some n /\ (0 < n)%Z)
   /\ (exists s, nextEligible (donorInfo st) = Some s /\ s <> ""))
  /\ (forall n,
        daysUntilEligible (donorInfo st) = Some n -> (n <= 0)%Z ->
        countdown_badges st = 0%nat)
  /\ (countdown_badges st <= 1)%nat.
Proof.
  rewrite countdown_badges_eq. unfold countdown_condition.
  split; [| split].
  - intros Hshown.
    destruct (truthy_str (bloodType (donorInfo st))); simpl in Hshown;
      [| lia].
    destruct (isEligible (donorInfo st)); simpl in Hshown; [lia |].
    destruct (not_null (daysUntilEligible (donorInfo st)));
      simpl in Hshown; [| lia].
    destruct (gt_zero (daysUntilEligible (donorInfo st))) eqn:Hgt;
      simpl in Hshown; [| lia].
    destruct (truthy_str (nextEligible (donorInfo st))) eqn:Hnext;
      simpl in Hshown; [| lia].
    split; [reflexivity |].
    split; [now apply gt_zero_true | now apply truthy_str_true].
  - intros n Hn Hle. rewrite Hn. simpl.
    destruct (Z.ltb_spec 0 n); [lia |].
    now rewrite !andb_false_r.
  - destruct (_ && _); simpl; lia.
Qed.

Lemma countdown_badge_only_when_days_positive_witness :
  (0 < countdown_badges waiting_state)%nat
  /\ isEligible (donorInfo waiting_state) = false
  /\ (exists n,
        daysUntilEligible (donorInfo waiting_state) = Some n /\ (0 < n)%Z).
Proof.
  assert (Hshown : (0 < countdown_badges waiting_state)%nat)
    by (vm_compute; lia).
  destruct (proj1 (countdown_badge_only_when_days_positive waiting_state)
              Hshown) as [Hel [Hdays _]].
  split; [exact Hshown | split; [exact Hel | exact Hdays]].
Defined.

Lemma historyItem_counts (d : Donation) :
  count_styled "historyItem" (historyItem d) = 1%nat
  /\ count_text "emptyText" [Str "No donations yet"] (historyItem d) = 0%nat.
Proof. split; reflexivity. Qed.

Lemma history_items_count (l : list Donation) :
  list_sum (map (count_styled "historyItem") (map historyItem l)) = length l.
Proof.
  induction l as [| d l IH]; [reflexivity |].
  cbn [map list_sum fold_right length].
  fold (list_sum (map (count_styled "historyItem") (map historyItem l))).
  rewrite IH. now rewrite (proj1 (historyItem_counts d)).
Qed.

Lemma history_items_no_empty_text (l : list Donation) :
  list_sum (map (count_text "emptyText" [Str "No donations yet"])
              (map historyItem l)) = 0%nat.
Proof.
  induction l as [| d l IH]; [reflexivity |].
  cbn [map list_sum fold_right].
  fold (list_sum (map (count_text "emptyText" [Str "No donations yet"])
                    (map historyItem l))).
  rewrite IH. now rewrite (proj2 (historyItem_counts d)).
Qed.

Lemma history_card_counts (l : list Donation) :
  count_styled "historyItem" (View ["historyCard"] (map historyItem l))
  = length l
  /\ count_text "emptyText" [Str "No donations yet"]
       (View ["historyCard"] (map historyItem l)) = 0%nat.
Proof.
  cbn [count_styled count_text].
  rewrite history_items_count, history_items_no_empty_text.
  split; reflexivity.
Qed.

Lemma section_counts (card : node action) :
  count_styled "historyItem"
    (View ["section"] [Text ["sectionTitle"] [Str "Recent Donations"]; card])
  = count_styled "historyItem" card
  /\ count_text "emptyText" [Str "No donations yet"]
       (View ["section"]
          [Text ["sectionTitle"] [Str "Recent Donations"]; card])
     = count_text "emptyText" [Str "No donations yet"] card.
Proof.
  cbn [count_styled count_text map list_sum fold_right].
  split; simpl; lia.
Qed.

(** C4.  Once loading is complete the recent-donations section shows one
    item per element of the stored list, in order, and for an empty list
    the empty-state message instead; a successful load stores the list of
    the response as it is, so the items are those of the server; in no
    state are items and the empty-state message on the screen together. *)
Theorem recent_donations_items_or_empty_state (st : State) :
  (loadingDonations st = false ->
   donation_items st = length (recentDonations st)
   /\ empty_state_messages st
      = (if (0 <? length (recentDonations st))%nat then 0 else 1)%nat
   /\ (recentDonations st = [] -> recentDonationsCard st = donationsEmptyCard)
   /\ (recentDonations st <> [] ->
       recentDonationsCard st
       = View ["historyCard"] (map historyItem (recentDonations st))))
  /\ (forall (u : User) (data : Donations.t),
        has_id (Some u) = true ->
        Donations.success data = true ->
        let st' :=
          exec (loadRecentDonations (Some u)
                  (Normal {| json := Normal data |})) st in
        loadingDonations st' = false
        /\ recentDonations st' = Donations.donations data
        /\ donation_items st' = length (Donations.donations data))
  /\ ~ ((0 < donation_items st)%nat /\ (0 < empty_state_messages st)%nat).
Proof.
  assert (Hdone : forall s : State,
             loadingDonations s = false ->
             donation_items s = length (recentDonations s)
             /\ empty_state_messages s
                = (if (0 <? length (recentDonations s))%nat then 0 else 1)%nat).
  { intros s Hs.
    unfold donation_items, empty_state_messages, recentDonationsSection.
    rewrite (proj1 (section_counts _)), (proj2 (section_counts _)).
    unfold recentDonationsCard. rewrite Hs.
    destruct (0 <? length (recentDonations s))%nat eqn:Hlen.
    - exact (history_card_counts (recentDonations s)).
    - apply Nat.ltb_ge in Hlen.
      split; [simpl; lia | reflexivity]. }
  split; [| split].
  - intros Hs. destruct (Hdone st Hs) as [Hitems Hempty].
    split; [exact Hitems | split; [exact Hempty |]].
    unfold recentDonationsCard. rewrite Hs.
    split; intros Hl.
    + now rewrite Hl.
    + destruct (recentDonations st); [contradiction | reflexivity].
  - intros u data Hid Hok. cbv zeta.
    unfold loadRecentDonations. rewrite Hid.
    unfold loadRecentDonations_body, exec, try_finally, try_catch, bind,
      await.
    cbn [json setLoadingDonations modify]. rewrite Hok.
    cbn [setRecentDonations setLoadingDonations modify snd].
    split; [reflexivity | split; [reflexivity |]].
    match goal with
    | |- donation_items ?s = _ =>
        destruct (Hdone s eq_refl) as [Hitems _]; exact Hitems
    end.
  - intros [Hitems Hempty].
    destruct (loadingDonations st) eqn:Hs.
    + unfold donation_items, recentDonationsSection, recentDonationsCard
        in Hitems.
      rewrite Hs in Hitems. simpl in Hitems. lia.
    + destruct (Hdone st Hs) as [_ Hmsg]. rewrite Hmsg in Hempty.
      destruct (Hdone st Hs) as [Hcount _]. rewrite Hcount in Hitems.
      destruct (recentDonations st); simpl in *; lia.
Qed.

Lemma recent_donations_items_or_empty_state_witness :
  loadingDonations two_donations_state = false
  /\ donation_items two_donations_state = 2%nat
  /\ empty_state_messages two_donations_state = 0%nat.
Proof.
  destruct (proj1 (recent_donations_items_or_empty_state two_donations_state)
              eq_refl) as [Hitems [Hempty _]].
  split; [reflexivity | split; [exact Hitems | exact Hempty]].
Defined.

End Rendering.

(** ** The donor dashboard: polling and unmounting *)

Section LifeCycle.
Import JS Eff Element DonorHome.

Lemma remove_nth_length {A : Type} (i : nat) (l : list A) :
  (length (remove_nth i l) <= length l)%nat.
Proof.
  revert i. induction l as [| x l IH]; intros i;
    [destruct i; simpl; lia |].
  destruct i as [| j]; simpl; [lia |].
  specialize (IH j). lia.
Qed.

Lemma begin_flags (s : Screen) (c : call) :
  mounted (begin s c) = mounted s /\ interval (begin s c) = interval s.
Proof. unfold begin. destruct (guard c (user s)); split; reflexivity. Qed.

Lemma begin_all_flags (cs : list call) (s : Screen) :
  mounted (begin_all cs s) = mounted s
  /\ interval (begin_all cs s) = interval s.
Proof.
  unfold begin_all. revert s.
  induction cs as [| c cs IH]; intros s; [split; reflexivity |].
  cbn [fold_left]. destruct (IH (begin s c)) as [Hm Hi].
  destruct (begin_flags s c) as [Hm' Hi'].
  split; congruence.
Qed.

(** Once the screen is unmounted and its timer cleared, an event keeps it
    so and starts no call. *)
Lemma step_when_unmounted (s : Screen) (e : event) :
  mounted s = false -> interval s = false ->
  mounted (step s e) = false
  /\ interval (step s e) = false
  /\ (length (inflight (step s e)) <= length (inflight s))%nat.
Proof.
  intros Hm Hi. destruct e as [| | i r |]; cbn [step].
  - rewrite Hi. repeat split; auto.
  - rewrite Hm. repeat split; auto.
  - destruct (nth_error (inflight s) i) as [c |]; [| repeat split; auto].
    destruct (resume c r) as [k |]; [| repeat split; auto].
    cbn [mounted interval inflight].
    repeat split; auto using remove_nth_length.
  - cbn [mounted interval inflight]. repeat split; auto.
Qed.

Lemma run_when_unmounted (es : list event) (s : Screen) :
  mounted s = false -> interval s = false ->
  (length (inflight (run es s)) <= length (inflight s))%nat.
Proof.
  unfold run. revert s.
  induction es as [| e es IH]; intros s Hm Hi; [simpl; lia |].
  cbn [fold_left].
  destruct (step_when_unmounted s e Hm Hi) as [Hm' [Hi' Hlen]].
  specialize (IH (step s e) Hm' Hi'). lia.
Qed.

(** Suspending [loadRecentDonations] at its first [await] splits it into
    the prefix and the continuation the life cycle uses; the other four
    operations have an empty prefix and their [try] block as
    continuation. *)
Lemma loadRecentDonations_split
    (fetch : completion (Response Donations.t)) (st : State) :
  loadRecentDonations_body fetch st
  = bind (prefix RecentDonationsCall)
         (fun _ => loadRecentDonations_resume fetch) st.
Proof.
  destruct fetch as [[[data | e]] | e]; [destruct data as [[|] l] | |];
    reflexivity.
Qed.

(** C8, as the code has it.  Unmounting clears the polling timer and
    nothing else: afterwards a tick or a focus event does nothing and no
    sequence of events starts a new call, but the calls in flight stay in
    flight, and the settlement of any of them is handed to the state
    setters exactly as it would have been on the mounted screen; a
    statistics call in flight, for one, still sets the donated count. *)
Theorem unmount_clears_timer_not_calls (s : Screen) :
  let s' := step s Unmount in
  inflight s' = inflight s
  /\ ui s' = ui s
  /\ step s' Tick = s'
  /\ step s' Focus = s'
  /\ (forall es, (length (inflight (run es s')) <= length (inflight s))%nat)
  /\ (forall i r, ui (step s' (Settle i r)) = ui (step s (Settle i r)))
  /\ (forall i n,
        nth_error (inflight s) i = Some DonorStatsCall ->
        donatedCount
          (ui (step s' (Settle i (StatsSettled
                                    (Normal {| Stats.donatedCount := n |})))))
        = n).
Proof.
  cbv zeta.
  split; [reflexivity |].
  split; [reflexivity |].
  split; [reflexivity |].
  split; [reflexivity |].
  split; [| split].
  - intros es.
    apply (run_when_unmounted es (step s Unmount)); reflexivity.
  - intros i r. cbn [step inflight ui].
    destruct (nth_error (inflight s) i) as [c |]; [| reflexivity].
    destruct (resume c r); reflexivity.
  - intros i n Hi. cbn [step inflight ui]. rewrite Hi. reflexivity.
Qed.

(** A statistics call started by the timer is in flight when the screen
    unmounts; its later settlement changes the donated count of the
    unmounted screen from 0 to 7. *)
Lemma poll_result_applied_after_unmount :
  let unmounted := step polling_screen Unmount in
  let settled := step unmounted (Settle 11 seven_donated) in
  length (inflight (mount (Some donor))) = 10%nat
  /\ nth_error (inflight polling_screen) 11 = Some DonorStatsCall
  /\ mounted unmounted = false
  /\ donatedCount (ui unmounted) = 0%Z
  /\ donatedCount (ui settled) = 7%Z
  /\ ui settled <> ui unmounted.
Proof.
  cbv zeta. repeat split; discriminate.
Qed.

End LifeCycle.

(** ** Further properties of the refresh operations *)

Section RefreshFrames.
Import JS Eff Element DonorHome.

(** Unfolds a refresh operation applied to a state and splits on every
    test left in it. *)
Ltac run_refresh :=
  cbv -[toLowerCase String.eqb Z.of_nat length];
  repeat match goal with
         | |- context [String.eqb ?x ?y] => destruct (String.eqb x y)
         | |- context [match ?x with _ => _ end] => is_var x; destruct x
         end;
  repeat split.

(** X1.  Each refresh operation writes its own cells only: whatever the
    user and the outcome of the request, the profile refresh leaves every
    cell but the profile status and remarks as it was, the statistics
    refresh every cell but the donated count, the details refresh every
    cell but the donor info, the available-requests refresh every cell but
    its count, and the recent-donations refresh every cell but the list
    and its loading flag. *)
Theorem refresh_writes_own_cells_only
    (user : option User) (st : State)
    (pp : completion ProfileResponse.t) (ps : completion Stats.t)
    (pd : completion (Response Details.t))
    (pr : completion (Response Donations.t))
    (pa : completion Available.t) :
  (let st' := exec (loadProfileStatus user pp) st in
   availableRequestsCount st' = availableRequestsCount st
   /\ donatedCount st' = donatedCount st
   /\ donorInfo st' = donorInfo st
   /\ recentDonations st' = recentDonations st
   /\ loadingDonations st' = loadingDonations st
   /\ unreadCount st' = unreadCount st
   /\ showMenu st' = showMenu st)
  /\ (let st' := exec (loadDonorStats user ps) st in
      availableRequestsCount st' = availableRequestsCount st
      /\ profileStatus st' = profileStatus st
      /\ profileRemarks st' = profileRemarks st
      /\ donorInfo st' = donorInfo st
      /\ recentDonations st' = recentDonations st
      /\ loadingDonations st' = loadingDonations st
      /\ unreadCount st' = unreadCount st
      /\ showMenu st' = showMenu st)
  /\ (let st' := exec (loadDonorDetails user pd) st in
      availableRequestsCount st' = availableRequestsCount st
      /\ profileStatus st' = profileStatus st
      /\ profileRemarks st' = profileRemarks st
      /\ donatedCount st' = donatedCount st
      /\ recentDonations st' = recentDonations st
      /\ loadingDonations st' = loadingDonations st
      /\ unreadCount st' = unreadCount st
      /\ showMenu st' = showMenu st)
  /\ (let st' := exec (updateAvailableCount user pa) st in
      profileStatus st' = profileStatus st
      /\ profileRemarks st' = profileRemarks st
      /\ donatedCount st' = donatedCount st
      /\ donorInfo st' = donorInfo st
      /\ recentDonations st' = recentDonations st
      /\ loadingDonations st' = loadingDonations st
      /\ unreadCount st' = unreadCount st
      /\ showMenu st' = showMenu st)
  /\ (let st' := exec (loadRecentDonations user pr) st in
      availableRequestsCount st' = availableRequestsCount st
      /\ profileStatus st' = profileStatus st
      /\ profileRemarks st' = profileRemarks st
      /\ donatedCount st' = donatedCount st
      /\ donorInfo st' = donorInfo st
      /\ unreadCount st' = unreadCount st
      /\ showMenu st' = showMenu st).
Proof.
  split; [| split; [| split; [| split]]]; cbv zeta.
  - unfold loadProfileStatus. destruct user; [| repeat split].
    run_refresh.
  - unfold loadDonorStats. destruct (has_id user); [| repeat split].
    run_refresh.
  - unfold loadDonorDetails. destruct (has_id user); [| repeat split].
    run_refresh.
  - unfold updateAvailableCount. destruct (has_id user); [| repeat split].
    run_refresh.
  - unfold loadRecentDonations. destruct (has_id user); [| repeat split].
    run_refresh.
Qed.

(** X2.  The five refresh operations never throw: whatever the user and
    the outcome of the request, each of them completes normally. *)
Theorem refresh_never_throws
    (user : option User) (st : State)
    (pp : completion ProfileResponse.t) (ps : completion Stats.t)
    (pd : completion (Response Details.t))
    (pr : completion (Response Donations.t))
    (pa : completion Available.t) :
  fst (loadProfileStatus user pp st) = Normal tt
  /\ fst (loadDonorStats user ps st) = Normal tt
  /\ fst (loadDonorDetails user pd st) = Normal tt
  /\ fst (loadRecentDonations user pr st) = Normal tt
  /\ fst (updateAvailableCount user pa st) = Normal tt.
Proof.
  split; [| split; [| split; [| split]]].
  - unfold loadProfileStatus. destruct user; [| reflexivity]. run_refresh.
  - unfold loadDonorStats. destruct (has_id user); [| reflexivity].
    run_refresh.
  - unfold loadDonorDetails. destruct (has_id user); [| reflexivity].
    run_refresh.
  - unfold loadRecentDonations. destruct (has_id user); [| reflexivity].
    run_refresh.
  - unfold updateAvailableCount. destruct (has_id user); [| reflexivity].
    run_refresh.
Qed.

End RefreshFrames.

Section RefreshOutcomes.
Import JS Eff Element DonorHome.

Ltac run_settled :=
  cbv -[toLowerCase String.eqb Z.of_nat length];
  repeat match goal with
         | |- context [String.eqb ?x ?y] => destruct (String.eqb x y)
         | |- context [match ?x with _ => _ end] => is_var x; destruct x
         end;
  reflexivity.

(** X3.  Settlements of two different refresh operations commute: the
    state after both continuations have run does not depend on which of
    the two responses arrived first. *)
Theorem settlements_of_different_calls_commute
    (c1 c2 : call) (r1 r2 : settlement) (k1 k2 : M State unit)
    (st : State) :
  c1 <> c2 ->
  resume c1 r1 = Some k1 ->
  resume c2 r2 = Some k2 ->
  exec k1 (exec k2 st) = exec k2 (exec k1 st).
Proof.
  intros Hne H1 H2.
  destruct c1, c2; try congruence;
    destruct r1; try discriminate H1;
    destruct r2; try discriminate H2;
    cbn [resume] in H1, H2;
    injection H1 as <-; injection H2 as <-;
    clear Hne; run_settled.
Qed.

Lemma settlements_of_different_calls_commute_witness :
  let k1 := loadDonorStats_body (Normal {| Stats.donatedCount := 7%Z |}) in
  let k2 := loadDonorDetails_body
              (Normal {| json := Normal waiting_details |}) in
  exec k1 (exec k2 initial_state) = exec k2 (exec k1 initial_state).
Proof.
  exact (settlements_of_different_calls_commute
           DonorStatsCall DonorDetailsCall
           (StatsSettled (Normal {| Stats.donatedCount := 7%Z |}))
           (DetailsSettled (Normal {| json := Normal waiting_details |}))
           _ _ initial_state
           ltac:(discriminate) eq_refl eq_refl).
Defined.

(** X4.  For a signed-in user the available-requests refresh always
    overwrites the count: with the number of requests of the response,
    with 0 when the response has no request list, and with 0 when the
    request fails; the count it leaves is never negative. *)
Theorem available_count_overwritten
    (u : User) (p : completion Available.t) (st : State) :
  has_id (Some u) = true ->
  let st' := exec (updateAvailableCount (Some u) p) st in
  availableRequestsCount st'
  = match p with
    | Normal {| Available.requests := Some l |} => Z.of_nat (length l)
    | Normal {| Available.requests := None |} => 0%Z
    | Throw _ => 0%Z
    end
  /\ (0 <= availableRequestsCount st')%Z.
Proof.
  intros Hid. cbv zeta. unfold updateAvailableCount. rewrite Hid.
  destruct p as [[[l |]] | e]; split; try reflexivity;
    cbv -[Z.of_nat length Z.le]; lia.
Qed.

Lemma available_count_overwritten_witness :
  has_id (Some donor) = true
  /\ availableRequestsCount
       (exec (updateAvailableCount (Some donor) (Normal two_requests))
             initial_state) = 2%Z.
Proof.
  split; [reflexivity |].
  exact (proj1 (available_count_overwritten
                  donor (Normal two_requests) initial_state eq_refl)).
Defined.

(** X5.  For a signed-in user the recent-donations refresh always ends
    with the loading flag cleared, whatever the outcome; the list is
    replaced by the one of the response exactly when the body parses and
    says [success], and is kept as it was otherwise. *)
Theorem recent_donations_flag_cleared
    (u : User) (p : completion (Response Donations.t)) (st : State) :
  has_id (Some u) = true ->
  let st' := exec (loadRecentDonations (Some u) p) st in
  loadingDonations st' = false
  /\ recentDonations st'
     = match p with
       | Normal {| json := Normal data |} =>
           if Donations.success data then Donations.donations data
           else recentDonations st
       | _ => recentDonations st
       end.
Proof.
  intros Hid. cbv zeta. unfold loadRecentDonations. rewrite Hid.
  destruct p as [[[[[|] l] | e]] | e]; split; reflexivity.
Qed.

Lemma recent_donations_flag_cleared_witness :
  has_id (Some donor) = true
  /\ loadingDonations
       (exec (loadRecentDonations (Some donor) (Throw (Rejected "offline")))
             initial_state) = false
  /\ recentDonations
       (exec (loadRecentDonations (Some donor) (Throw (Rejected "offline")))
             two_donations_state)
     = recentDonations two_donations_state.
Proof.
  split; [reflexivity |]. split.
  - exact (proj1 (recent_donations_flag_cleared
                    donor (Throw (Rejected "offline")) initial_state
                    eq_refl)).
  - exact (proj2 (recent_donations_flag_cleared
                    donor (Throw (Rejected "offline")) two_donations_state
                    eq_refl)).
Defined.

(** X6.  The unread-count refresh has no error handling: for a signed-in
    user a rejected request leaves the function as a throw with the state
    untouched, and a fulfilled one stores the count and changes no other
    cell; without a user id nothing happens. *)
Theorem unread_count_rejection_escapes
    (user : option User) (e : error) (n : Z) (st : State) :
  (has_id user = true ->
   loadUnreadCount user (Throw e) st = (Throw e, st)
   /\ fst (loadUnreadCount user (Normal n) st) = Normal tt
   /\ exec (loadUnreadCount user (Normal n)) st
      = exec (setUnreadCount n) st
   /\ unreadCount (exec (loadUnreadCount user (Normal n)) st) = n)
  /\ (has_id user = false ->
      forall p, loadUnreadCount user p st = (Normal tt, st)).
Proof.
  unfold loadUnreadCount.
  split; intros Hid; rewrite Hid.
  - repeat split.
  - reflexivity.
Qed.

Lemma unread_count_rejection_escapes_witness :
  has_id (Some donor) = true
  /\ loadUnreadCount (Some donor) (Throw (Rejected "offline")) initial_state
     = (Throw (Rejected "offline"), initial_state).
Proof.
  split; [reflexivity |].
  exact (proj1 (proj1 (unread_count_rejection_escapes
                         (Some donor) (Rejected "offline") 0%Z
                         initial_state) eq_refl)).
Defined.

(** A string whose lower-case form is ASCII is ASCII itself. *)
Lemma is_ascii_of_lowered (s : string) :
  is_ascii (toLowerCase s) = true -> is_ascii s = true.
Proof.
  induction s as [| c s IH]; [reflexivity |].
  cbn [toLowerCase is_ascii]. intros H.
  apply andb_true_iff in H. destruct H as [Hc Hs].
  apply andb_true_iff. split; [| now apply IH].
  unfold lower_ascii in Hc.
  destruct ((65 <=? nat_of_ascii c)%nat && (nat_of_ascii c <=? 90)%nat)
    eqn:Hupper; [| exact Hc].
  apply andb_true_iff in Hupper. destruct Hupper as [_ Hle].
  apply Nat.leb_le in Hle. apply Nat.ltb_lt. lia.
Qed.

(** The profile status after a successful response whose snake-case
    approval status is a non-empty string of ASCII characters. *)
Lemma profile_status_of_snake_case
    (u : User) (st : State) (prof : ProfileResponse.Profile) (s : string) :
  ProfileResponse.approval_status prof = Some s ->
  s <> "" ->
  is_ascii s = true ->
  let st' :=
    exec (loadProfileStatus (Some u)
            (Normal {| ProfileResponse.success := true;
                       ProfileResponse.profile := Some prof |})) st in
  profileStatus st' = toLowerCase s
  /\ profileRemarks st'
     = or_lit (or_str (ProfileResponse.admin_remarks prof)
                      (ProfileResponse.adminRemarks prof)) "".
Proof.
  intros Hs Hne _. cbv zeta.
  destruct prof as [snake camel remarks remarks'].
  cbn [ProfileResponse.approval_status] in Hs. subst snake.
  assert (Hor : or_str (Some s) camel = Some s).
  { unfold or_str, truthy_str.
    destruct (String.eqb_spec s "") as [E | _];
      [contradiction | reflexivity]. }
  cbv -[toLowerCase String.eqb or_lit or_str].
  rewrite Hor. split; reflexivity.
Qed.

(** X7.  The approval status is matched without regard to case: after a
    successful response whose non-empty approval status is "approved",
    "pending" or "rejected" in any mix of upper and lower case, the
    profile status card is the approved, the pending or the rejected card,
    the last one with the remarks of the response. *)
Theorem approval_status_case_insensitive
    (u : User) (st : State) (prof : ProfileResponse.Profile) (s : string) :
  ProfileResponse.approval_status prof = Some s ->
  s <> "" ->
  let st' :=
    exec (loadProfileStatus (Some u)
            (Normal {| ProfileResponse.success := true;
                       ProfileResponse.profile := Some prof |})) st in
  (toLowerCase s = "approved" -> profileStatusCard st' = Some approvedCard)
  /\ (toLowerCase s = "pending" -> profileStatusCard st' = Some pendingCard)
  /\ (toLowerCase s = "rejected" ->
      profileStatusCard st'
      = Some (rejectedCard
                (or_lit (or_str (ProfileResponse.admin_remarks prof)
                                (ProfileResponse.adminRemarks prof)) ""))).
Proof.
  intros Hs Hne. cbv zeta.
  assert (Hcard : forall t,
             is_ascii t = true -> toLowerCase s = t ->
             profileStatusCard
               (exec (loadProfileStatus (Some u)
                        (Normal {| ProfileResponse.success := true;
                                   ProfileResponse.profile := Some prof |}))
                     st)
             = profileStatusCard
                 (exec (setProfileRemarks
                          (or_lit
                             (or_str (ProfileResponse.admin_remarks prof)
                                     (ProfileResponse.adminRemarks prof))
                             ""))
                       (exec (setProfileStatus t) st))).
  { intros t Ht E.
    assert (Ha : is_ascii s = true)
      by (apply is_ascii_of_lowered; now rewrite E).
    destruct (profile_status_of_snake_case u st prof s Hs Hne Ha)
      as [Hst Hrem].
    unfold profileStatusCard. rewrite Hst, Hrem, E. reflexivity. }
  split; [| split]; intros E;
    rewrite (fun Ht => Hcard _ Ht E) by reflexivity; reflexivity.
Qed.

Lemma approval_status_case_insensitive_witness :
  profileStatusCard
    (exec (loadProfileStatus (Some donor) (Normal approved_response))
          initial_state)
  = Some approvedCard.
Proof.
  refine (proj1 (approval_status_case_insensitive
                   donor initial_state
                   {| ProfileResponse.approval_status := Some "Approved";
                      ProfileResponse.approvalStatus := None;
                      ProfileResponse.admin_remarks := None;
                      ProfileResponse.adminRemarks := None |}
                   "Approved" eq_refl _) eq_refl).
  discriminate.
Defined.

End RefreshOutcomes.

(** ** Further properties of the polling life cycle *)

Section Polling.
Import JS Eff Element DonorHome.

Lemma nth_error_remove_nth_later {A : Type} (l : list A) (i j : nat) :
  (i < j)%nat -> nth_error (remove_nth j l) i = nth_error l i.
Proof.
  revert i j. induction l as [| x l IH]; intros i j Hlt.
  - destruct j; reflexivity.
  - destruct j as [| j]; [lia |].
    destruct i as [| i]; [reflexivity |].
    cbn [remove_nth nth_error]. apply IH. lia.
Qed.

Lemma nth_error_remove_nth_earlier {A : Type} (l : list A) (i j : nat) :
  (i <= j)%nat -> nth_error (remove_nth i l) j = nth_error l (S j).
Proof.
  revert i j. induction l as [| x l IH]; intros i j Hle.
  - destruct i, j; reflexivity.
  - destruct i as [| i]; [reflexivity |].
    destruct j as [| j]; [lia |].
    cbn [remove_nth nth_error]. apply IH. lia.
Qed.

(** X8.  When two statistics calls are in flight, the donated count ends
    as the value of whichever response arrives last, also when that
    response answers the call that was started first. *)
Theorem last_stats_response_wins
    (s : Screen) (i j : nat) (a b : Z) :
  (i < j)%nat ->
  nth_error (inflight s) i = Some DonorStatsCall ->
  nth_error (inflight s) j = Some DonorStatsCall ->
  let first := StatsSettled (Normal {| Stats.donatedCount := a |}) in
  let second := StatsSettled (Normal {| Stats.donatedCount := b |}) in
  donatedCount (ui (step (step s (Settle i first)) (Settle (j - 1) second)))
  = b
  /\ donatedCount (ui (step (step s (Settle j second)) (Settle i first)))
     = a.
Proof.
  intros Hlt Hi Hj. cbv zeta. split.
  - destruct j as [| j]; [lia |].
    replace (S j - 1)%nat with j by lia.
    cbn [step]. rewrite Hi. cbn [resume inflight ui].
    rewrite (nth_error_remove_nth_earlier _ i j) by lia.
    rewrite Hj. reflexivity.
  - cbn [step]. rewrite Hj. cbn [resume inflight ui].
    rewrite (nth_error_remove_nth_later _ i j Hlt), Hi.
    reflexivity.
Qed.

Lemma last_stats_response_wins_witness :
  nth_error (inflight polling_screen) 1 = Some DonorStatsCall
  /\ nth_error (inflight polling_screen) 11 = Some DonorStatsCall
  /\ donatedCount
       (ui (step (step polling_screen
                    (Settle 11 (StatsSettled
                                  (Normal {| Stats.donatedCount := 8%Z |}))))
              (Settle 1 (StatsSettled
                           (Normal {| Stats.donatedCount := 7%Z |})))))
     = 7%Z.
Proof.
  split; [reflexivity | split; [reflexivity |]].
  refine (proj2 (last_stats_response_wins
                   polling_screen 1 11 7%Z 8%Z _ eq_refl eq_refl)).
  lia.
Defined.

Lemma tick_starts_three (s : Screen) :
  interval s = true ->
  has_id (user s) = true ->
  step s Tick
  = {| user := user s; mounted := mounted s; interval := interval s;
       ui := ui s; inflight := inflight s ++ interval_calls |}.
Proof.
  intros Hint Hid. cbn [step]. rewrite Hint.
  unfold begin_all, interval_calls. cbn [fold_left].
  unfold begin.
  cbn [guard]. rewrite Hid. cbn [user guard]. rewrite Hid.
  cbn [user guard]. rewrite Hid.
  cbn [user mounted interval ui inflight prefix].
  rewrite Hint, <- !app_assoc. reflexivity.
Qed.

(** X9.  Polls are not de-duplicated: while the timer runs and a user
    is signed in, every tick starts three more calls (available count,
    statistics, details) whatever is already in flight, and changes no
    cell; after [n] ticks without a response, [3 n] more calls are in
    flight. *)
Theorem ticks_accumulate_calls (n : nat) (s : Screen) :
  interval s = true ->
  has_id (user s) = true ->
  let s' := run (repeat Tick n) s in
  inflight s' = (inflight s ++ concat (repeat interval_calls n))%list
  /\ length (inflight s') = (length (inflight s) + 3 * n)%nat
  /\ ui s' = ui s.
Proof.
  intros Hint Hid. cbv zeta.
  assert (Hrun : run (repeat Tick n) s
                 = {| user := user s; mounted := mounted s;
                      interval := interval s; ui := ui s;
                      inflight :=
                        inflight s ++ concat (repeat interval_calls n) |}).
  { revert s Hint Hid. induction n as [| n IH]; intros s Hint Hid.
    - cbn [repeat concat run fold_left]. rewrite app_nil_r.
      destruct s; reflexivity.
    - cbn [repeat run fold_left]. fold (run (repeat Tick n) (step s Tick)).
      rewrite (tick_starts_three s Hint Hid).
      rewrite IH by assumption.
      cbn [user mounted interval ui inflight concat].
      rewrite <- app_assoc. reflexivity. }
  rewrite Hrun. cbn [inflight ui].
  split; [reflexivity | split; [| reflexivity]].
  rewrite length_app. f_equal.
  clear. induction n as [| n IH]; [reflexivity |].
  cbn [repeat concat]. rewrite length_app, IH. cbn [interval_calls length].
  lia.
Qed.

Lemma ticks_accumulate_calls_witness :
  interval (mount (Some donor)) = true
  /\ has_id (user (mount (Some donor))) = true
  /\ length (inflight (run (repeat Tick 5) (mount (Some donor)))) = 25%nat.
Proof.
  split; [reflexivity | split; [reflexivity |]].
  exact (proj1 (proj2 (ticks_accumulate_calls
                         5 (mount (Some donor)) eq_refl eq_refl))).
Defined.

Lemma begin_signed_out (s : Screen) (c : call) :
  user s = None -> begin s c = s.
Proof. intros Hu. unfold begin. rewrite Hu. now destruct c. Qed.

Lemma begin_all_signed_out (cs : list call) (s : Screen) :
  user s = None -> begin_all cs s = s.
Proof.
  intros Hu. unfold begin_all.
  induction cs as [| c cs IH]; [reflexivity |].
  cbn [fold_left]. now rewrite (begin_signed_out s c Hu).
Qed.

Lemma step_signed_out (s : Screen) (e : event) :
  user s = None -> inflight s = [] ->
  user (step s e) = None
  /\ inflight (step s e) = []
  /\ ui (step s e) = ui s.
Proof.
  intros Hu Hin. destruct e as [| | i r |]; cbn [step].
  - destruct (interval s); rewrite ?begin_all_signed_out by assumption;
      auto.
  - destruct (mounted s); rewrite ?begin_all_signed_out by assumption;
      auto.
  - rewrite Hin. destruct i; cbn [nth_error]; auto.
  - cbn [user inflight ui]. auto.
Qed.

(** X10.  While no user is signed in, nothing is requested and no event
    changes a cell: whatever ticks, focus events and settlements follow
    the mount, the state stays the initial one, so the dashboard keeps
    showing "Loading profile..." and "Loading donations...". *)
Theorem signed_out_screen_stays_loading (es : list event) :
  let s := run es (mount None) in
  inflight s = []
  /\ ui s = initial_state
  /\ profileStatusCard (ui s) = Some loadingCard
  /\ recentDonationsCard (ui s) = donationsLoadingCard.
Proof.
  cbv zeta.
  assert (Hinv : forall s,
             user s = None -> inflight s = [] ->
             inflight (run es s) = [] /\ ui (run es s) = ui s).
  { unfold run. induction es as [| e es IH]; intros s Hu Hin;
      [split; [assumption | reflexivity] |].
    cbn [fold_left].
    destruct (step_signed_out s e Hu Hin) as [Hu' [Hin' Hui]].
    destruct (IH (step s e) Hu' Hin') as [H1 H2].
    split; [exact H1 | congruence]. }
  destruct (Hinv (mount None) eq_refl eq_refl) as [Hin Hui].
  rewrite Hin, Hui. repeat split.
Qed.

End Polling.

(** ** Further properties of the rendered screen *)

Section Screen.
Import JS Eff Element DonorHome.

(** Closes one case of the status chains once the status is a literal. *)
Ltac status_case :=
  cbv; intuition (try discriminate; try congruence).

(** X11.  The role line of the side menu follows the profile status card:
    it reads "Approved Donor", "Pending Approval" or "Profile Rejected"
    exactly when the card is the approved, the pending or the rejected
    card, and "Donor" exactly when the card is the loading card, the
    incomplete-profile card or absent; the colour of the role indicator is
    the one that goes with the role line. *)
Theorem menu_role_follows_status_card (st : State) :
  let label := roleLabel (profileStatus st) in
  let colour := roleIndicatorColor (profileStatus st) in
  (label = "Approved Donor" <-> profileStatusCard st = Some approvedCard)
  /\ (label = "Pending Approval"
      <-> profileStatusCard st = Some pendingCard)
  /\ (label = "Profile Rejected"
      <-> profileStatusCard st = Some (rejectedCard (profileRemarks st)))
  /\ (label = "Donor"
      <-> profileStatusCard st = Some loadingCard
          \/ profileStatusCard st = Some incompleteCard
          \/ profileStatusCard st = None)
  /\ (colour = "#4CAF50" <-> label = "Approved Donor")
  /\ (colour = "#FF9800" <-> label = "Pending Approval")
  /\ (colour = "#F44336" <-> label = "Profile Rejected")
  /\ (colour = "#999" <-> label = "Donor").
Proof.
  cbv zeta.
  unfold roleLabel, roleIndicatorColor, profileStatusCard.
  destruct st as [avail status remarks donated info recent loading unread
                    menu].
  cbn [profileStatus profileRemarks].
  destruct (String.eqb_spec status "loading") as [-> | N1];
    [status_case |].
  destruct (String.eqb_spec status "none") as [-> | N2];
    [status_case |].
  destruct (String.eqb_spec status "pending") as [-> | N3];
    [status_case |].
  destruct (String.eqb_spec status "rejected") as [-> | N4];
    [status_case |].
  destruct (String.eqb_spec status "approved") as [-> | N5];
    [status_case |].
  clear. intuition (try discriminate; try congruence).
Qed.

(** X12.  The bell badge of the header and the badge of the
    "Notifications" menu item are shown exactly when the unread count is
    positive.  The bell badge shows the count up to 99 and "99+" above;
    the menu badge shows the count itself, also above 99. *)
Theorem unread_badges (st : State) :
  let n := unreadCount st in
  count_styled "notificationBadge" (header st)
  = (if (0 <? n)%Z then 1 else 0)%nat
  /\ count_styled "menuBadge" (menuSection st)
     = (if (0 <? n)%Z then 1 else 0)%nat
  /\ ((0 < n <= 99)%Z ->
      count_text "notificationBadgeText" [Num n] (header st) = 1%nat
      /\ count_text "menuBadgeText" [Num n] (menuSection st) = 1%nat)
  /\ ((99 < n)%Z ->
      count_text "notificationBadgeText" [Str "99+"] (header st) = 1%nat
      /\ count_text "notificationBadgeText" [Num n] (header st) = 0%nat
      /\ count_text "menuBadgeText" [Num n] (menuSection st) = 1%nat).
Proof.
  cbv zeta.
  unfold header, menuSection, headerBadge, menuBadge.
  split; [| split; [| split]].
  - destruct (0 <? unreadCount st)%Z; reflexivity.
  - destruct (0 <? unreadCount st)%Z; reflexivity.
  - intros [Hpos Hle].
    destruct (Z.ltb_spec 0 (unreadCount st)); [| lia].
    destruct (Z.ltb_spec 99 (unreadCount st)); [lia |].
    cbn -[Z.eqb]. rewrite Z.eqb_refl. split; reflexivity.
  - intros Hbig.
    destruct (Z.ltb_spec 0 (unreadCount st)); [| lia].
    destruct (Z.ltb_spec 99 (unreadCount st)); [| lia].
    cbn -[Z.eqb]. rewrite Z.eqb_refl. repeat split.
Qed.

(** X13.  The "Browse Blood Requests" card says "No active requests
    available" and has no badge when the count is zero or negative, says
    "1 request need your help" for one request and "[n] requests need your
    help" for more, with a badge in both cases.  A failed poll of the
    available requests is shown exactly like a response with an empty
    list. *)
Theorem browse_card_wording (st : State) :
  let n := availableRequestsCount st in
  ((n <= 0)%Z ->
   browseDescription st = "No active requests available"
   /\ count_styled "notificationBadge" (browseRequestsCard st) = 0%nat)
  /\ (n = 1%Z -> browseDescription st = "1 request need your help")
  /\ ((1 < n)%Z ->
      browseDescription st = interpolate_num n ++ " requests need your help")
  /\ ((0 < n)%Z ->
      count_styled "notificationBadge" (browseRequestsCard st) = 1%nat)
  /\ (forall (u : User) (e : error),
        has_id (Some u) = true ->
        let failed := exec (updateAvailableCount (Some u) (Throw e)) st in
        let empty :=
          exec (updateAvailableCount (Some u)
                  (Normal {| Available.requests := Some [] |})) st in
        browseRequestsCard failed = browseRequestsCard empty
        /\ browseDescription failed = "No active requests available").
Proof.
  cbv zeta. unfold browseDescription, browseRequestsCard.
  split; [| split; [| split; [| split]]].
  - intros Hle.
    destruct (Z.ltb_spec 0 (availableRequestsCount st)); [lia |].
    split; reflexivity.
  - intros ->. reflexivity.
  - intros Hgt.
    destruct (Z.ltb_spec 0 (availableRequestsCount st)); [| lia].
    destruct (Z.eqb_spec (availableRequestsCount st) 1); [lia |].
    reflexivity.
  - intros Hpos.
    destruct (Z.ltb_spec 0 (availableRequestsCount st)); [| lia].
    reflexivity.
  - intros u e Hid. unfold updateAvailableCount. rewrite Hid.
    split; reflexivity.
Qed.

Lemma browse_card_wording_witness :
  browseDescription
    (exec (updateAvailableCount (Some donor) (Normal two_requests))
          initial_state)
  = "2 requests need your help".
Proof.
  refine (proj1 (proj2 (proj2 (browse_card_wording
                                 (exec (updateAvailableCount (Some donor)
                                          (Normal two_requests))
                                       initial_state)))) _).
  reflexivity.
Defined.

(** X14.  The donor profile card and the eligibility card are shown
    together or not at all, each at most once, and exactly when the blood
    type is a non-empty string.  So after a details response without a
    blood group neither card is on the screen, nor a countdown badge,
    whatever the eligibility fields of the response say. *)
Theorem profile_and_eligibility_cards_together (st : State) :
  length (donorProfileCard st) = length (eligibilityStatus st)
  /\ (length (eligibilityStatus st) <= 1)%nat
  /\ (eligibilityStatus st <> []
      <-> exists s, bloodType (donorInfo st) = Some s /\ s <> "")
  /\ (forall (u : User) (data : Details.t),
        has_id (Some u) = true ->
        Details.success data = true ->
        truthy_str (Details.bloodGroup data) = false ->
        let st' :=
          exec (loadDonorDetails (Some u)
                  (Normal {| json := Normal data |})) st in
        donorProfileCard st' = []
        /\ eligibilityStatus st' = []
        /\ countdown_badges st' = 0%nat).
Proof.
  split; [| split; [| split]].
  - unfold donorProfileCard, eligibilityStatus.
    destruct (truthy_str (bloodType (donorInfo st))); reflexivity.
  - unfold eligibilityStatus.
    destruct (truthy_str (bloodType (donorInfo st))); simpl; lia.
  - unfold eligibilityStatus, truthy_str.
    destruct (bloodType (donorInfo st)) as [s |].
    + destruct (String.eqb_spec s "") as [-> | Hne]; cbn [negb when].
      * split; [intros H; now contradiction H |].
        intros [s' [Hs' Hne']]. congruence.
      * split; [intros _; now exists s | intros _; discriminate].
    + cbn [when]. split; [intros H; now contradiction H |].
      intros [s' [Hs' _]]. discriminate.
  - intros u data Hid Hok Hblank. cbv zeta.
    unfold loadDonorDetails. rewrite Hid.
    unfold loadDonorDetails_body, exec, try_catch, bind, await.
    cbn [json]. rewrite Hok.
    unfold countdown_badges, donorProfileCard, eligibilityStatus.
    cbn [setDonorInfo modify snd donorInfo bloodType].
    rewrite Hblank. repeat split.
Qed.

(** X15.  Every press in the side menu closes the menu: the menu has six
    pressables when it is open and is absent when it is closed, and the
    handler of each pressable clears [showMenu] and changes no other
    cell.  The menu icon of the header toggles [showMenu]. *)
Theorem menu_presses_close_menu (user : option User) (st : State) :
  (showMenu st = false -> sidebar user st = [])
  /\ (showMenu st = true ->
      length (concat (map handlers (sidebar user st))) = 6%nat)
  /\ (forall h,
        In h (concat (map handlers (sidebar user st))) ->
        forall st', pressed h st' = exec (setShowMenu false) st')
  /\ (exists h rest,
        handlers (header st) = h :: rest
        /\ showMenu (pressed h st) = negb (showMenu st)).
Proof.
  split; [| split; [| split]].
  - intros Hclosed. unfold sidebar. now rewrite Hclosed.
  - intros Hopen.
    unfold sidebar, menuSection, menuBadge, menuHeader. rewrite Hopen.
    destruct (0 <? unreadCount st)%Z;
      destruct (truthy_str (user_email user)); reflexivity.
  - intros h Hin st'. unfold sidebar in Hin.
    destruct (showMenu st); [| contradiction Hin].
    unfold menuSection, menuBadge, menuHeader in Hin.
    destruct (0 <? unreadCount st)%Z;
      destruct (truthy_str (user_email user)); cbn in Hin;
      repeat (destruct Hin as [<- | Hin]; [reflexivity |]);
      contradiction Hin.
  - eexists. eexists. split; [reflexivity |]. reflexivity.
Qed.

End Screen.

(** ** Further properties of the alert dialog *)

Section AlertStyles.
Import Element Alert.

Context {W : Type}.

(** X16.  The container and the label of an alert button are styled
    alike: the cancel style is on both or on neither, and so is the
    destructive style; no button carries both; a button without a style,
    or with the default one, carries neither. *)
Theorem alert_button_styles_agree
    (d : option (W -> W)) (n : nat) (b : AlertButton W) :
  exists sty h lsty label,
    renderButton d n b = TouchableOpacity sty h [Text lsty label]
    /\ has_style "buttonCancel" sty = has_style "buttonTextCancel" lsty
    /\ has_style "buttonDestructive" sty
       = has_style "buttonTextDestructive" lsty
    /\ has_style "buttonCancel" sty && has_style "buttonDestructive" sty
       = false
    /\ (style b = None \/ style b = Some default ->
        has_style "buttonCancel" sty = false
        /\ has_style "buttonDestructive" sty = false).
Proof.
  unfold renderButton, is_cancel, is_destructive.
  do 4 eexists. split; [reflexivity |].
  destruct (style b) as [[| |] |]; destruct (n =? 1)%nat;
    (split; [reflexivity |]); (split; [reflexivity |]);
    (split; [reflexivity |]);
    intros [E | E]; try discriminate E; split; reflexivity.
Qed.

End AlertStyles.

Section RejectedCard.
Import JS Eff Element DonorHome.

(** X17.  The rejected card never shows an empty explanation: its
    subtitle is the stored remarks when they are not empty and "Please
    update your profile" otherwise.  After a rejection whose response
    carries no remarks the stored remarks are empty, so the card shows the
    fallback text, whatever remarks an earlier response had left. *)
Theorem rejected_card_subtitle_never_empty (remarks : string) :
  (exists shown,
      shown <> ""
      /\ count_text "profileStatusSubtitle" [Str shown]
           (rejectedCard remarks) = 1%nat
      /\ (remarks <> "" -> shown = remarks)
      /\ (remarks = "" -> shown = "Please update your profile"))
  /\ (forall (u : User) (st : State) (s : string),
        toLowerCase s = "rejected" ->
        let st' :=
          exec (loadProfileStatus (Some u)
                  (Normal {| ProfileResponse.success := true;
                             ProfileResponse.profile :=
                               Some {|
                                 ProfileResponse.approval_status := Some s;
                                 ProfileResponse.approvalStatus := None;
                                 ProfileResponse.admin_remarks := None;
                                 ProfileResponse.adminRemarks := None |} |}))
               st in
        profileStatusCard st' = Some (rejectedCard "")
        /\ count_text "profileStatusSubtitle"
             [Str "Please update your profile"] (rejectedCard "") = 1%nat).
Proof.
  split.
  - exists (or_lit (Some remarks) "Please update your profile").
    unfold or_lit.
    destruct (String.eqb_spec remarks "") as [-> | Hne].
    + split; [discriminate |].
      split; [reflexivity |].
      split; [intros H; exfalso; now apply H | reflexivity].
    + split; [assumption |].
      split.
      * unfold rejectedCard, or_lit.
        destruct (String.eqb_spec remarks ""); [contradiction |].
        cbn [count_text map list_sum fold_right has_style existsb
               jsx_list_eqb jsx_eqb].
        rewrite (String.eqb_refl remarks). reflexivity.
      * split; [reflexivity | intros E; contradiction].
  - intros u st s Hs. cbv zeta.
    assert (Hne : s <> "") by (intros ->; discriminate Hs).
    assert (Ha : is_ascii s = true)
      by (apply is_ascii_of_lowered; now rewrite Hs).
    destruct (profile_status_of_snake_case u st
                {| ProfileResponse.approval_status := Some s;
                   ProfileResponse.approvalStatus := None;
                   ProfileResponse.admin_remarks := None;
                   ProfileResponse.adminRemarks := None |}
                s eq_refl Hne Ha) as [Hst Hrem].
    unfold profileStatusCard. rewrite Hst, Hrem, Hs.
    split; reflexivity.
Qed.

End RejectedCard.
